(** * Template Humidifier: a model of [humidifier.py] and its properties

    The component is one adapter class, [TemplateHumidifier], living inside
    a host runtime.  The host owns the template renderer, the script engine,
    the state machine and the logger; the component owns a handful of
    attributes, a recompute step ([_update_state]), a subscription step
    ([_get_template_entities], [async_added_to_hass]) and four control
    operations.

    The model is a shallow embedding:
    - Python values that a template can render to are the type [pyval];
    - the entity is a record with the attributes of the class;
    - a method is a function from the entity to an outcome (a result or a
      raised exception), the entity after the call, and the host calls it
      made, in order;
    - the host is a record of oracles, fixed for the duration of one call. *)

From Stdlib Require Import ZArith String List Ascii Bool DecimalString Lia.
From stdpp Require Import gmap strings.
Import ListNotations.
Local Open Scope Z_scope.
Local Open Scope list_scope.

(** ** Python floats

    The component converts to float, compares a float with the literals
    [0] and [1] and prints a float; nothing else.  The arithmetic of the
    language is left to its runtime, behind an interface. *)

Class PyFloat := {
  float : Type;
  (** [float(n)] for an [int]; [None] stands for [OverflowError]. *)
  float_of_int : Z -> option float;
  (** [float(s)] for a [str]; [None] stands for [ValueError]. *)
  float_of_str : string -> option float;
  (** [x == n] for a float [x] and an [int] [n]. *)
  float_eq_int : float -> Z -> bool;
  (** [str(x)]. *)
  float_str : float -> string;
}.

(** ** Strings

    A [str] is modelled by [string], one character per code point below 256.
    [str.strip()] removes the characters for which [str.isspace()] holds. *)

Definition isspace (c : ascii) : bool :=
  let n := N_of_ascii c in
  ((9 <=? n) && (n <=? 13) || (28 <=? n) && (n <=? 32)
   || (n =? 133) || (n =? 160))%N.

Fixpoint lstrip (s : string) : string :=
  match s with
  | String c rest => if isspace c then lstrip rest else s
  | EmptyString => EmptyString
  end.

Fixpoint rstrip (s : string) : string :=
  match s with
  | String c rest =>
      match rstrip rest with
      | EmptyString => if isspace c then EmptyString else String c EmptyString
      | rest' => String c rest'
      end
  | EmptyString => EmptyString
  end.

Definition strip (s : string) : string := rstrip (lstrip s).

(** Whether a string begins, or ends, with a character that [strip]
    removes. *)
Definition starts_with_space (s : string) : bool :=
  match s with
  | String c _ => isspace c
  | EmptyString => false
  end.

Fixpoint ends_with_space (s : string) : bool :=
  match s with
  | EmptyString => false
  | String c EmptyString => isspace c
  | String _ rest => ends_with_space rest
  end.

Definition str_of_int (n : Z) : string :=
  NilZero.string_of_int (Z.to_int n).

(** ** Exceptions and outcomes *)

Inductive Exn : Type :=
  | TemplateError (msg : string)
  | ValueError
  | TypeError
  | OverflowError.

Inductive Res (A : Type) : Type :=
  | Ret (a : A)
  | Raise (ex : Exn).
Arguments Ret {A} a.
Arguments Raise {A} ex.

(** ** The configuration schema

    [PLATFORM_SCHEMA] is the host's platform schema extended with a table of
    fields.  A field is a marker (here always [vol.Optional], with or
    without a default) and the validator applied to its value. *)

Definition CONF_NAME : string := "name".
Definition CONF_UNIQUE_ID : string := "unique_id".
Definition CONF_MIN_HUMIDITY : string := "min_humidity".
Definition CONF_MAX_HUMIDITY : string := "max_humidity".
Definition CONF_TARGET_HUMIDITY_TEMPLATE : string := "target_humidity_template".
Definition CONF_CURRENT_HUMIDITY_TEMPLATE : string := "current_humidity_template".
Definition CONF_STATE_TEMPLATE : string := "state_template".
Definition CONF_MODE_TEMPLATE : string := "mode_template".
Definition CONF_ACTION_TEMPLATE : string := "action_template".
Definition CONF_MODES : string := "modes".
Definition CONF_SET_TARGET_HUMIDITY_ACTION : string := "set_target_humidity_action".
Definition CONF_SET_MODE_ACTION : string := "set_mode_action".
Definition CONF_TURN_ON_ACTION : string := "turn_on_action".
Definition CONF_TURN_OFF_ACTION : string := "turn_off_action".

Definition DEFAULT_NAME : string := "Template Humidifier".
Definition DEFAULT_MIN_HUMIDITY : Z := 40.
Definition DEFAULT_MAX_HUMIDITY : Z := 70.
Definition DEFAULT_MODES : list string :=
  ["normal"; "eco"; "away"; "boost"; "comfort"; "home"; "sleep"; "auto";
   "baby"]%string.

Inductive DefaultValue : Type :=
  | DefaultStr (s : string)
  | DefaultInt (n : Z)
  | DefaultList (l : list string).

Inductive Validator : Type :=
  | cv_string
  | Coerce_float
  | cv_template
  | cv_ensure_list
  | cv_SCRIPT_SCHEMA
  | cv_other (what : string).

Record Field : Type := {
  key : string;
  required : bool;
  default : option DefaultValue;
  validator : Validator;
}.

(** [vol.Optional(key): validator] and
    [vol.Optional(key, default=d): validator]. *)
Definition Optional (k : string) (d : option DefaultValue) (v : Validator)
    : Field :=
  {| key := k; required := false; default := d; validator := v |}.

Definition has_key (k : string) (schema : list Field) : bool :=
  existsb (fun f => String.eqb (key f) k) schema.

(** [base.extend(fields)]: a key of [fields] replaces the same key of
    [base]; the others are added. *)
Definition extend (base fields : list Field) : list Field :=
  List.filter (fun f => negb (has_key (key f) fields)) base ++ fields.

Definition lookup_field (k : string) (schema : list Field) : option Field :=
  List.find (fun f => String.eqb (key f) k) schema.

Definition PLATFORM_SCHEMA_fields : list Field :=
  [ Optional CONF_NAME (Some (DefaultStr DEFAULT_NAME)) cv_string;
    Optional CONF_UNIQUE_ID None cv_string;
    Optional CONF_MIN_HUMIDITY (Some (DefaultInt DEFAULT_MIN_HUMIDITY)) Coerce_float;
    Optional CONF_MAX_HUMIDITY (Some (DefaultInt DEFAULT_MAX_HUMIDITY)) Coerce_float;
    Optional CONF_TARGET_HUMIDITY_TEMPLATE None cv_template;
    Optional CONF_CURRENT_HUMIDITY_TEMPLATE None cv_template;
    Optional CONF_STATE_TEMPLATE None cv_template;
    Optional CONF_MODE_TEMPLATE None cv_template;
    Optional CONF_ACTION_TEMPLATE None cv_template;
    Optional CONF_MODES (Some (DefaultList DEFAULT_MODES)) cv_ensure_list;
    Optional CONF_SET_TARGET_HUMIDITY_ACTION None cv_SCRIPT_SCHEMA;
    Optional CONF_SET_MODE_ACTION None cv_SCRIPT_SCHEMA;
    Optional CONF_TURN_ON_ACTION None cv_SCRIPT_SCHEMA;
    Optional CONF_TURN_OFF_ACTION None cv_SCRIPT_SCHEMA ].

(** The schema of the platform, over the host's schema [base]. *)
Definition PLATFORM_SCHEMA (base : list Field) : list Field :=
  extend base PLATFORM_SCHEMA_fields.

Section Component.

Context `{PyFloat}.

(** ** Values

    What [Template.async_render] can hand back: the host parses the rendered
    text into a native value.  A list, tuple, dict or set comes back in a
    wrapper whose [str()] is the rendered text; this component only ever
    looks at its truth value (empty or not) and at that text. *)

Inductive pyval : Type :=
  | PNone
  | PBool (b : bool)
  | PInt (n : Z)
  | PFloat (x : float)
  | PStr (s : string)
  | PContainer (len : nat) (text : string).

(** The literals written in the source's membership tests. *)
Inductive pylit : Type :=
  | LBool (b : bool)
  | LInt (n : Z)
  | LStr (s : string).

Definition int_of_bool (b : bool) : Z := if b then 1 else 0.

(** [v == l]: [bool] is a subclass of [int], numbers compare by value across
    [bool], [int] and [float], and a string equals only the same string. *)
Definition py_eq (v : pyval) (l : pylit) : bool :=
  match v, l with
  | PBool b, LBool c => Z.eqb (int_of_bool b) (int_of_bool c)
  | PBool b, LInt n => Z.eqb (int_of_bool b) n
  | PInt m, LBool c => Z.eqb m (int_of_bool c)
  | PInt m, LInt n => Z.eqb m n
  | PFloat x, LBool c => float_eq_int x (int_of_bool c)
  | PFloat x, LInt n => float_eq_int x n
  | PStr s, LStr t => String.eqb s t
  | _, _ => false
  end.

(** [v in (l1, l2, ...)]. *)
Definition py_in (v : pyval) (ls : list pylit) : bool :=
  existsb (py_eq v) ls.

(** [bool(v)]. *)
Definition py_bool (v : pyval) : bool :=
  match v with
  | PNone => false
  | PBool b => b
  | PInt n => negb (Z.eqb n 0)
  | PFloat x => negb (float_eq_int x 0)
  | PStr s => negb (String.eqb s "")
  | PContainer len _ => negb (Nat.eqb len 0)
  end.

(** [str(v)]. *)
Definition py_str (v : pyval) : string :=
  match v with
  | PNone => "None"
  | PBool true => "True"
  | PBool false => "False"
  | PInt n => str_of_int n
  | PFloat x => float_str x
  | PStr s => s
  | PContainer _ text => text
  end.

(** [float(v)]: numbers convert, a string is parsed ([ValueError] when it is
    not a number), anything else is a [TypeError]. *)
Definition py_float (v : pyval) : Res float :=
  match v with
  | PNone => Raise TypeError
  | PBool b =>
      match float_of_int (int_of_bool b) with
      | Some x => Ret x
      | None => Raise OverflowError
      end
  | PInt n =>
      match float_of_int n with
      | Some x => Ret x
      | None => Raise OverflowError
      end
  | PFloat x => Ret x
  | PStr s =>
      match float_of_str s with
      | Some x => Ret x
      | None => Raise ValueError
      end
  | PContainer _ _ => Raise TypeError
  end.

(** ** Host objects

    A [Template] is the host's object for a template expression: its source
    text and whether the host has been attached to it.  It defines neither
    [__bool__] nor [__len__], so as a condition it is true exactly when it
    is not [None]; the same goes for a [Script]. *)

Record Template : Type := {
  template : string;
  hass : bool;
}.

Record Script : Type := {
  script_sequence : list string;
  script_name : option string;
  script_domain : string;
}.

Definition HUMIDIFIER_DOMAIN : string := "humidifier".

(** What a call of [Template.async_render] does: it returns the rendered
    value or raises [TemplateError]. *)
Inductive RenderOutcome : Type :=
  | Rendered (v : pyval)
  | RenderFailed (msg : string).

(** What a call of [Template.async_render_to_info] does: it returns an info
    object, of which only [entities] is read, or raises [TemplateError]. *)
Inductive InfoOutcome : Type :=
  | Info (entities : gset string)
  | InfoFailed (msg : string).

(** The host at the time of a call: how each template renders against the
    current entity states. *)
Record HomeAssistant : Type := {
  render : Template -> RenderOutcome;
  render_to_info : Template -> InfoOutcome;
}.

Inductive HumidifierDeviceClass : Type :=
  | HUMIDIFIER
  | DEHUMIDIFIER.

(** [HumidifierEntityFeature] is an integer flag with the single bit
    [MODES]. *)
Definition MODES : Z := 1.

(** ** Configuration

    The validated configuration [__init__] receives, one field per key of
    the schema; [None] is an absent key. *)

Record ConfigType : Type := {
  conf_name : option string;
  conf_unique_id : option string;
  conf_min_humidity : option float;
  conf_max_humidity : option float;
  conf_target_humidity_template : option Template;
  conf_current_humidity_template : option Template;
  conf_state_template : option Template;
  conf_mode_template : option Template;
  conf_action_template : option Template;
  conf_modes : option (list string);
  conf_set_target_humidity_action : option (list string);
  conf_set_mode_action : option (list string);
  conf_turn_on_action : option (list string);
  conf_turn_off_action : option (list string);
}.

(** ** The entity *)

Record TemplateHumidifier : Type := {
  _attr_name : option string;
  _attr_unique_id : option string;
  _attr_min_humidity : option float;
  _attr_max_humidity : option float;
  _attr_available_modes : option (list string);
  _target_humidity_template : option Template;
  _current_humidity_template : option Template;
  _state_template : option Template;
  _mode_template : option Template;
  _action_template : option Template;
  _set_target_humidity_script : option Script;
  _set_mode_script : option Script;
  _turn_on_script : option Script;
  _turn_off_script : option Script;
  _attr_target_humidity : pyval;
  _attr_current_humidity : pyval;
  _attr_mode : pyval;
  _attr_action : pyval;
  _state : bool;
  _attr_supported_features : Z;
  _attr_device_class : HumidifierDeviceClass;
}.

(** The five templates, by the attribute each one drives. *)
Inductive Attr : Type :=
  | State
  | TargetHumidity
  | CurrentHumidity
  | Mode
  | Action.

Definition Attr_eqb (a b : Attr) : bool :=
  match a, b with
  | State, State | TargetHumidity, TargetHumidity
  | CurrentHumidity, CurrentHumidity | Mode, Mode | Action, Action => true
  | _, _ => false
  end.

(** ** Calls into the host, as they appear in a trace *)

Inductive Event : Type :=
  | CallRender (a : Attr) (t : Template) (r : RenderOutcome)
  | CallLoggerError (fmt : string) (ex : Exn)
  | CallWriteHaState (self : TemplateHumidifier)
  | CallScriptRun (s : Script) (run_variables : option (list (string * pyval)))
  | CallTrackStateChange (entity_ids : list string).

(** ** Methods

    A method runs on the entity and gives an outcome, the entity as the call
    left it (an assignment made before an exception stays made) and the
    host calls it made. *)

Definition M (A : Type) : Type :=
  TemplateHumidifier -> Res A * TemplateHumidifier * list Event.

Definition ret {A} (a : A) : M A := fun self => (Ret a, self, []).

Definition bind {A B} (m : M A) (k : A -> M B) : M B :=
  fun self =>
    match m self with
    | (Ret a, self1, tr1) =>
        match k a self1 with
        | (r, self2, tr2) => (r, self2, tr1 ++ tr2)
        end
    | (Raise ex, self1, tr1) => (Raise ex, self1, tr1)
    end.

Definition raise {A} (ex : Exn) : M A := fun self => (Raise ex, self, []).

Definition call (ev : Event) : M unit := fun self => (Ret tt, self, [ev]).

Definition get {A} (field : TemplateHumidifier -> A) : M A :=
  fun self => (Ret (field self), self, []).

Definition modify (f : TemplateHumidifier -> TemplateHumidifier) : M unit :=
  fun self => (Ret tt, f self, []).

(** [try: body  except <catches> as ex: handler ex]. *)
Definition try_except {A} (body : M A) (catches : Exn -> bool)
    (handler : Exn -> M A) : M A :=
  fun self =>
    match body self with
    | (Raise ex, self1, tr1) =>
        if catches ex then
          match handler ex self1 with
          | (r, self2, tr2) => (r, self2, tr1 ++ tr2)
          end
        else (Raise ex, self1, tr1)
    | done => done
    end.

(** [if o: ...] on an attribute that holds an object or [None]. *)
Definition if_set {A} (o : option A) (body : A -> M unit) : M unit :=
  match o with
  | Some x => body x
  | None => ret tt
  end.

Definition lift {A} (r : Res A) : M A :=
  match r with
  | Ret a => ret a
  | Raise ex => raise ex
  end.

(** ** Assignments to attributes

    [set_f x self] is [self] after [self._f = x]. *)

Definition set_attr_target_humidity (x : _) (self : TemplateHumidifier) : TemplateHumidifier :=
  {| _attr_name := _attr_name self;
     _attr_unique_id := _attr_unique_id self;
     _attr_min_humidity := _attr_min_humidity self;
     _attr_max_humidity := _attr_max_humidity self;
     _attr_available_modes := _attr_available_modes self;
     _target_humidity_template := _target_humidity_template self;
     _current_humidity_template := _current_humidity_template self;
     _state_template := _state_template self;
     _mode_template := _mode_template self;
     _action_template := _action_template self;
     _set_target_humidity_script := _set_target_humidity_script self;
     _set_mode_script := _set_mode_script self;
     _turn_on_script := _turn_on_script self;
     _turn_off_script := _turn_off_script self;
     _attr_target_humidity := x;
     _attr_current_humidity := _attr_current_humidity self;
     _attr_mode := _attr_mode self;
     _attr_action := _attr_action self;
     _state := _state self;
     _attr_supported_features := _attr_supported_features self;
     _attr_device_class := _attr_device_class self |}.

Definition set_attr_current_humidity (x : _) (self : TemplateHumidifier) : TemplateHumidifier :=
  {| _attr_name := _attr_name self;
     _attr_unique_id := _attr_unique_id self;
     _attr_min_humidity := _attr_min_humidity self;
     _attr_max_humidity := _attr_max_humidity self;
     _attr_available_modes := _attr_available_modes self;
     _target_humidity_template := _target_humidity_template self;
     _current_humidity_template := _current_humidity_template self;
     _state_template := _state_template self;
     _mode_template := _mode_template self;
     _action_template := _action_template self;
     _set_target_humidity_script := _set_target_humidity_script self;
     _set_mode_script := _set_mode_script self;
     _turn_on_script := _turn_on_script self;
     _turn_off_script := _turn_off_script self;
     _attr_target_humidity := _attr_target_humidity self;
     _attr_current_humidity := x;
     _attr_mode := _attr_mode self;
     _attr_action := _attr_action self;
     _state := _state self;
     _attr_supported_features := _attr_supported_features self;
     _attr_device_class := _attr_device_class self |}.

Definition set_attr_mode (x : _) (self : TemplateHumidifier) : TemplateHumidifier :=
  {| _attr_name := _attr_name self;
     _attr_unique_id := _attr_unique_id self;
     _attr_min_humidity := _attr_min_humidity self;
     _attr_max_humidity := _attr_max_humidity self;
     _attr_available_modes := _attr_available_modes self;
     _target_humidity_template := _target_humidity_template self;
     _current_humidity_template := _current_humidity_template self;
     _state_template := _state_template self;
     _mode_template := _mode_template self;
     _action_template := _action_template self;
     _set_target_humidity_script := _set_target_humidity_script self;
     _set_mode_script := _set_mode_script self;
     _turn_on_script := _turn_on_script self;
     _turn_off_script := _turn_off_script self;
     _attr_target_humidity := _attr_target_humidity self;
     _attr_current_humidity := _attr_current_humidity self;
     _attr_mode := x;
     _attr_action := _attr_action self;
     _state := _state self;
     _attr_supported_features := _attr_supported_features self;
     _attr_device_class := _attr_device_class self |}.

Definition set_attr_action (x : _) (self : TemplateHumidifier) : TemplateHumidifier :=
  {| _attr_name := _attr_name self;
     _attr_unique_id := _attr_unique_id self;
     _attr_min_humidity := _attr_min_humidity self;
     _attr_max_humidity := _attr_max_humidity self;
     _attr_available_modes := _attr_available_modes self;
     _target_humidity_template := _target_humidity_template self;
     _current_humidity_template := _current_humidity_template self;
     _state_template := _state_template self;
     _mode_template := _mode_template self;
     _action_template := _action_template self;
     _set_target_humidity_script := _set_target_humidity_script self;
     _set_mode_script := _set_mode_script self;
     _turn_on_script := _turn_on_script self;
     _turn_off_script := _turn_off_script self;
     _attr_target_humidity := _attr_target_humidity self;
     _attr_current_humidity := _attr_current_humidity self;
     _attr_mode := _attr_mode self;
     _attr_action := x;
     _state := _state self;
     _attr_supported_features := _attr_supported_features self;
     _attr_device_class := _attr_device_class self |}.

Definition set_state (x : _) (self : TemplateHumidifier) : TemplateHumidifier :=
  {| _attr_name := _attr_name self;
     _attr_unique_id := _attr_unique_id self;
     _attr_min_humidity := _attr_min_humidity self;
     _attr_max_humidity := _attr_max_humidity self;
     _attr_available_modes := _attr_available_modes self;
     _target_humidity_template := _target_humidity_template self;
     _current_humidity_template := _current_humidity_template self;
     _state_template := _state_template self;
     _mode_template := _mode_template self;
     _action_template := _action_template self;
     _set_target_humidity_script := _set_target_humidity_script self;
     _set_mode_script := _set_mode_script self;
     _turn_on_script := _turn_on_script self;
     _turn_off_script := _turn_off_script self;
     _attr_target_humidity := _attr_target_humidity self;
     _attr_current_humidity := _attr_current_humidity self;
     _attr_mode := _attr_mode self;
     _attr_action := _attr_action self;
     _state := x;
     _attr_supported_features := _attr_supported_features self;
     _attr_device_class := _attr_device_class self |}.

Definition set_target_humidity_template (x : _) (self : TemplateHumidifier) : TemplateHumidifier :=
  {| _attr_name := _attr_name self;
     _attr_unique_id := _attr_unique_id self;
     _attr_min_humidity := _attr_min_humidity self;
     _attr_max_humidity := _attr_max_humidity self;
     _attr_available_modes := _attr_available_modes self;
     _target_humidity_template := x;
     _current_humidity_template := _current_humidity_template self;
     _state_template := _state_template self;
     _mode_template := _mode_template self;
     _action_template := _action_template self;
     _set_target_humidity_script := _set_target_humidity_script self;
     _set_mode_script := _set_mode_script self;
     _turn_on_script := _turn_on_script self;
     _turn_off_script := _turn_off_script self;
     _attr_target_humidity := _attr_target_humidity self;
     _attr_current_humidity := _attr_current_humidity self;
     _attr_mode := _attr_mode self;
     _attr_action := _attr_action self;
     _state := _state self;
     _attr_supported_features := _attr_supported_features self;
     _attr_device_class := _attr_device_class self |}.

Definition set_current_humidity_template (x : _) (self : TemplateHumidifier) : TemplateHumidifier :=
  {| _attr_name := _attr_name self;
     _attr_unique_id := _attr_unique_id self;
     _attr_min_humidity := _attr_min_humidity self;
     _attr_max_humidity := _attr_max_humidity self;
     _attr_available_modes := _attr_available_modes self;
     _target_humidity_template := _target_humidity_template self;
     _current_humidity_template := x;
     _state_template := _state_template self;
     _mode_template := _mode_template self;
     _action_template := _action_template self;
     _set_target_humidity_script := _set_target_humidity_script self;
     _set_mode_script := _set_mode_script self;
     _turn_on_script := _turn_on_script self;
     _turn_off_script := _turn_off_script self;
     _attr_target_humidity := _attr_target_humidity self;
     _attr_current_humidity := _attr_current_humidity self;
     _attr_mode := _attr_mode self;
     _attr_action := _attr_action self;
     _state := _state self;
     _attr_supported_features := _attr_supported_features self;
     _attr_device_class := _attr_device_class self |}.

Definition set_state_template (x : _) (self : TemplateHumidifier) : TemplateHumidifier :=
  {| _attr_name := _attr_name self;
     _attr_unique_id := _attr_unique_id self;
     _attr_min_humidity := _attr_min_humidity self;
     _attr_max_humidity := _attr_max_humidity self;
     _attr_available_modes := _attr_available_modes self;
     _target_humidity_template := _target_humidity_template self;
     _current_humidity_template := _current_humidity_template self;
     _state_template := x;
     _mode_template := _mode_template self;
     _action_template := _action_template self;
     _set_target_humidity_script := _set_target_humidity_script self;
     _set_mode_script := _set_mode_script self;
     _turn_on_script := _turn_on_script self;
     _turn_off_script := _turn_off_script self;
     _attr_target_humidity := _attr_target_humidity self;
     _attr_current_humidity := _attr_current_humidity self;
     _attr_mode := _attr_mode self;
     _attr_action := _attr_action self;
     _state := _state self;
     _attr_supported_features := _attr_supported_features self;
     _attr_device_class := _attr_device_class self |}.

Definition set_mode_template (x : _) (self : TemplateHumidifier) : TemplateHumidifier :=
  {| _attr_name := _attr_name self;
     _attr_unique_id := _attr_unique_id self;
     _attr_min_humidity := _attr_min_humidity self;
     _attr_max_humidity := _attr_max_humidity self;
     _attr_available_modes := _attr_available_modes self;
     _target_humidity_template := _target_humidity_template self;
     _current_humidity_template := _current_humidity_template self;
     _state_template := _state_template self;
     _mode_template := x;
     _action_template := _action_template self;
     _set_target_humidity_script := _set_target_humidity_script self;
     _set_mode_script := _set_mode_script self;
     _turn_on_script := _turn_on_script self;
     _turn_off_script := _turn_off_script self;
     _attr_target_humidity := _attr_target_humidity self;
     _attr_current_humidity := _attr_current_humidity self;
     _attr_mode := _attr_mode self;
     _attr_action := _attr_action self;
     _state := _state self;
     _attr_supported_features := _attr_supported_features self;
     _attr_device_class := _attr_device_class self |}.

Definition set_action_template (x : _) (self : TemplateHumidifier) : TemplateHumidifier :=
  {| _attr_name := _attr_name self;
     _attr_unique_id := _attr_unique_id self;
     _attr_min_humidity := _attr_min_humidity self;
     _attr_max_humidity := _attr_max_humidity self;
     _attr_available_modes := _attr_available_modes self;
     _target_humidity_template := _target_humidity_template self;
     _current_humidity_template := _current_humidity_template self;
     _state_template := _state_template self;
     _mode_template := _mode_template self;
     _action_template := x;
     _set_target_humidity_script := _set_target_humidity_script self;
     _set_mode_script := _set_mode_script self;
     _turn_on_script := _turn_on_script self;
     _turn_off_script := _turn_off_script self;
     _attr_target_humidity := _attr_target_humidity self;
     _attr_current_humidity := _attr_current_humidity self;
     _attr_mode := _attr_mode self;
     _attr_action := _attr_action self;
     _state := _state self;
     _attr_supported_features := _attr_supported_features self;
     _attr_device_class := _attr_device_class self |}.

Notation "'let*' x ':=' c1 'in' c2" := (bind c1 (fun x => c2))
  (at level 10, x name, c1 at level 100, c2 at level 200).
Notation "c1 >> c2" := (bind c1 (fun _ => c2))
  (at level 90, right associativity).

(** ** Construction: [TemplateHumidifier.__init__] *)

(** [Script(hass, sequence, name, domain)]. *)
Definition new_Script (sequence : list string) (name : option string)
    (domain : string) : Script :=
  {| script_sequence := sequence;
     script_name := name;
     script_domain := domain |}.

Definition __init__ (config : ConfigType) : TemplateHumidifier :=
  {| _attr_name := conf_name config;
     _attr_unique_id := conf_unique_id config;
     _attr_min_humidity := conf_min_humidity config;
     _attr_max_humidity := conf_max_humidity config;
     _attr_available_modes := conf_modes config;
     _target_humidity_template := conf_target_humidity_template config;
     _current_humidity_template := conf_current_humidity_template config;
     _state_template := conf_state_template config;
     _mode_template := conf_mode_template config;
     _action_template := conf_action_template config;
     _set_target_humidity_script :=
       match conf_set_target_humidity_action config with
       | Some sequence => Some (new_Script sequence (conf_name config) HUMIDIFIER_DOMAIN)
       | None => None
       end;
     _set_mode_script :=
       match conf_set_mode_action config with
       | Some sequence => Some (new_Script sequence (conf_name config) HUMIDIFIER_DOMAIN)
       | None => None
       end;
     _turn_on_script :=
       match conf_turn_on_action config with
       | Some sequence => Some (new_Script sequence (conf_name config) HUMIDIFIER_DOMAIN)
       | None => None
       end;
     _turn_off_script :=
       match conf_turn_off_action config with
       | Some sequence => Some (new_Script sequence (conf_name config) HUMIDIFIER_DOMAIN)
       | None => None
       end;
     _attr_target_humidity := PNone;
     _attr_current_humidity := PNone;
     _attr_mode := PNone;
     _attr_action := PNone;
     _state := false;
     _attr_supported_features :=
       let features := 0 in
       match conf_modes config with
       | Some (_ :: _) => Z.lor features MODES
       | Some [] | None => features
       end;
     _attr_device_class := HUMIDIFIER |}.

Definition is_on (self : TemplateHumidifier) : bool := _state self.

(** ** The methods that talk to the host *)

Section Methods.

Variable host : HomeAssistant.

Definition async_render (a : Attr) (t : Template) : M pyval :=
  fun self =>
    match render host t with
    | Rendered v => (Ret v, self, [CallRender a t (Rendered v)])
    | RenderFailed msg =>
        (Raise (TemplateError msg), self, [CallRender a t (RenderFailed msg)])
    end.

Definition _LOGGER_error (fmt : string) (ex : Exn) : M unit :=
  call (CallLoggerError fmt ex).

Definition async_write_ha_state : M unit :=
  fun self => (Ret tt, self, [CallWriteHaState self]).

Definition async_run (s : Script)
    (run_variables : option (list (string * pyval))) : M unit :=
  call (CallScriptRun s run_variables).

Definition async_track_state_change_event (entity_ids : list string) : M unit :=
  call (CallTrackStateChange entity_ids).

Definition STATE_ON : string := "on".
Definition STATE_OFF : string := "off".

Definition catch_TemplateError (ex : Exn) : bool :=
  match ex with
  | TemplateError _ => true
  | _ => false
  end.

Definition catch_TemplateError_ValueError (ex : Exn) : bool :=
  match ex with
  | TemplateError _ | ValueError => true
  | _ => false
  end.

(** *** [_get_template_entities] *)

Definition _get_template_entities (self : TemplateHumidifier) : list string :=
  let entities : gset string :=
    fold_left
      (fun (entities : gset string) (template : option Template) =>
         match template with
         | Some t =>
             match render_to_info host t with
             | Info info_entities => entities ∪ info_entities
             | InfoFailed _ => entities
             end
         | None => entities
         end)
      [ _target_humidity_template self;
        _current_humidity_template self;
        _state_template self;
        _mode_template self;
        _action_template self ]
      ∅ in
  elements entities.

(** *** [_update_state]

    Five [try] statements in a row, one per template. *)

Definition try_state_template : M unit :=
  try_except
    (let* tpl := get _state_template in
     if_set tpl (fun t =>
       let* result := async_render State t in
       if py_in result
            [LBool true; LStr "True"; LStr "true"; LStr "on"; LStr "On";
             LStr "ON"; LStr STATE_ON; LInt 1; LStr "1"]
       then modify (set_state true)
       else if py_in result
            [LBool false; LStr "False"; LStr "false"; LStr "off"; LStr "Off";
             LStr "OFF"; LStr STATE_OFF; LInt 0; LStr "0"]
       then modify (set_state false)
       else modify (set_state (py_bool result))))
    catch_TemplateError
    (fun ex => _LOGGER_error "Error rendering state template: %s" ex).

Definition try_target_humidity_template : M unit :=
  try_except
    (let* tpl := get _target_humidity_template in
     if_set tpl (fun t =>
       let* result := async_render TargetHumidity t in
       let* x := lift (py_float result) in
       modify (set_attr_target_humidity (PFloat x))))
    catch_TemplateError_ValueError
    (fun ex => _LOGGER_error "Error rendering target humidity template: %s" ex).

Definition try_current_humidity_template : M unit :=
  try_except
    (let* tpl := get _current_humidity_template in
     if_set tpl (fun t =>
       let* result := async_render CurrentHumidity t in
       let* x := lift (py_float result) in
       modify (set_attr_current_humidity (PFloat x))))
    catch_TemplateError_ValueError
    (fun ex => _LOGGER_error "Error rendering current humidity template: %s" ex).

Definition try_mode_template : M unit :=
  try_except
    (let* tpl := get _mode_template in
     if_set tpl (fun t =>
       let* result := async_render Mode t in
       modify (set_attr_mode (PStr (strip (py_str result))))))
    catch_TemplateError
    (fun ex => _LOGGER_error "Error rendering mode template: %s" ex).

Definition try_action_template : M unit :=
  try_except
    (let* tpl := get _action_template in
     if_set tpl (fun t =>
       let* result := async_render Action t in
       modify (set_attr_action (PStr (py_str result)))))
    catch_TemplateError
    (fun ex => _LOGGER_error "Error rendering action template: %s" ex).

Definition _update_state : M unit :=
  try_state_template >>
  try_target_humidity_template >>
  try_current_humidity_template >>
  try_mode_template >>
  try_action_template.

(** *** [async_added_to_hass] and the callback it registers *)

Definition _async_update_state : M unit :=
  _update_state >>
  async_write_ha_state.

Definition attach (t : Template) : Template :=
  {| template := template t; hass := true |}.

(** Of the host calls this method makes, the trace keeps the subscription
    and the calls of the recompute.  [super().async_added_to_hass()], the
    [async_render_to_info] analyses made for [_get_template_entities] and
    [async_on_remove] are not recorded as calls. *)
Definition async_added_to_hass : M unit :=
  (let* tpl := get _target_humidity_template in
   if_set tpl (fun t => modify (set_target_humidity_template (Some (attach t))))) >>
  (let* tpl := get _current_humidity_template in
   if_set tpl (fun t => modify (set_current_humidity_template (Some (attach t))))) >>
  (let* tpl := get _state_template in
   if_set tpl (fun t => modify (set_state_template (Some (attach t))))) >>
  (let* tpl := get _mode_template in
   if_set tpl (fun t => modify (set_mode_template (Some (attach t))))) >>
  (let* tpl := get _action_template in
   if_set tpl (fun t => modify (set_action_template (Some (attach t))))) >>
  (let* entity_ids := get _get_template_entities in
   async_track_state_change_event entity_ids) >>
  _update_state.

(** *** Control operations *)

Definition async_set_humidity (humidity : pyval) : M unit :=
  let* script := get _set_target_humidity_script in
  match script with
  | Some s => async_run s (Some [("humidity"%string, humidity)])
  | None =>
      modify (set_attr_target_humidity humidity) >>
      async_write_ha_state
  end.

Definition async_set_mode (mode : pyval) : M unit :=
  let* script := get _set_mode_script in
  match script with
  | Some s => async_run s (Some [("mode"%string, mode)])
  | None =>
      modify (set_attr_mode mode) >>
      async_write_ha_state
  end.

Definition async_turn_on : M unit :=
  let* script := get _turn_on_script in
  match script with
  | Some s => async_run s None
  | None =>
      modify (set_state true) >>
      async_write_ha_state
  end.

Definition async_turn_off : M unit :=
  let* script := get _turn_off_script in
  match script with
  | Some s => async_run s None
  | None =>
      modify (set_state false) >>
      async_write_ha_state
  end.


(** ** Observations used to state the properties *)

Definition all_attrs : list Attr :=
  [State; TargetHumidity; CurrentHumidity; Mode; Action].

(** The template that drives an attribute, and the attribute it drives
    (the on/off state seen as a value). *)
Definition template_of (a : Attr) (self : TemplateHumidifier) : option Template :=
  match a with
  | State => _state_template self
  | TargetHumidity => _target_humidity_template self
  | CurrentHumidity => _current_humidity_template self
  | Mode => _mode_template self
  | Action => _action_template self
  end.

Definition attr_of (a : Attr) (self : TemplateHumidifier) : pyval :=
  match a with
  | State => PBool (_state self)
  | TargetHumidity => _attr_target_humidity self
  | CurrentHumidity => _attr_current_humidity self
  | Mode => _attr_mode self
  | Action => _attr_action self
  end.

(** The entity with the template of [a] replaced. *)
Definition set_template (a : Attr) (o : option Template)
    (self : TemplateHumidifier) : TemplateHumidifier :=
  match a with
  | State => set_state_template o self
  | TargetHumidity => set_target_humidity_template o self
  | CurrentHumidity => set_current_humidity_template o self
  | Mode => set_mode_template o self
  | Action => set_action_template o self
  end.

(** The message under which a failure of the template of [a] is logged. *)
Definition error_format (a : Attr) : string :=
  match a with
  | State => "Error rendering state template: %s"
  | TargetHumidity => "Error rendering target humidity template: %s"
  | CurrentHumidity => "Error rendering current humidity template: %s"
  | Mode => "Error rendering mode template: %s"
  | Action => "Error rendering action template: %s"
  end.

(** The host calls made on behalf of the template of [a]. *)
Definition about (a : Attr) (ev : Event) : bool :=
  match ev with
  | CallRender b _ _ => Attr_eqb a b
  | CallLoggerError fmt _ => String.eqb fmt (error_format a)
  | _ => false
  end.

(** The value a rendered result is turned into before it is stored. *)
Definition coerce (a : Attr) (v : pyval) : Res pyval :=
  match a with
  | State =>
      if py_in v
           [LBool true; LStr "True"; LStr "true"; LStr "on"; LStr "On";
            LStr "ON"; LStr STATE_ON; LInt 1; LStr "1"]
      then Ret (PBool true)
      else if py_in v
           [LBool false; LStr "False"; LStr "false"; LStr "off"; LStr "Off";
            LStr "OFF"; LStr STATE_OFF; LInt 0; LStr "0"]
      then Ret (PBool false)
      else Ret (PBool (py_bool v))
  | TargetHumidity | CurrentHumidity =>
      match py_float v with
      | Ret x => Ret (PFloat x)
      | Raise ex => Raise ex
      end
  | Mode => Ret (PStr (strip (py_str v)))
  | Action => Ret (PStr (py_str v))
  end.

Definition store (a : Attr) (w : pyval) (self : TemplateHumidifier)
    : TemplateHumidifier :=
  match a with
  | State =>
      match w with
      | PBool b => set_state b self
      | _ => self
      end
  | TargetHumidity => set_attr_target_humidity w self
  | CurrentHumidity => set_attr_current_humidity w self
  | Mode => set_attr_mode w self
  | Action => set_attr_action w self
  end.

(** The exceptions the [try] statement of [a] handles. *)
Definition catches (a : Attr) : Exn -> bool :=
  match a with
  | TargetHumidity | CurrentHumidity => catch_TemplateError_ValueError
  | State | Mode | Action => catch_TemplateError
  end.

(** The exception, if any, that the [try] statement of [a] handles after a
    call of [async_render] with outcome [o]. *)
Definition failure_of (a : Attr) (o : RenderOutcome) : option Exn :=
  match o with
  | RenderFailed msg => Some (TemplateError msg)
  | Rendered v =>
      match coerce a v with
      | Raise ex => if catches a ex then Some ex else None
      | Ret _ => None
      end
  end.


(** The [try] statement of [a], in one shape for the five of them. *)
Definition block (a : Attr) : M unit :=
  fun self =>
    match template_of a self with
    | None => (Ret tt, self, [])
    | Some t =>
        match render host t with
        | RenderFailed msg =>
            (Ret tt, self,
             [CallRender a t (RenderFailed msg);
              CallLoggerError (error_format a) (TemplateError msg)])
        | Rendered v =>
            match coerce a v with
            | Ret w => (Ret tt, store a w self, [CallRender a t (Rendered v)])
            | Raise ex =>
                if catches a ex then
                  (Ret tt, self,
                   [CallRender a t (Rendered v);
                    CallLoggerError (error_format a) ex])
                else (Raise ex, self, [CallRender a t (Rendered v)])
            end
        end
    end.

(** The four ways a [try] statement can go. *)
Inductive block_run (a : Attr) (self : TemplateHumidifier)
    : Res unit * TemplateHumidifier * list Event -> Prop :=
  | block_skipped :
      template_of a self = None ->
      block_run a self (Ret tt, self, [])
  | block_handled t o ex :
      template_of a self = Some t ->
      render host t = o ->
      failure_of a o = Some ex ->
      block_run a self
        (Ret tt, self, [CallRender a t o; CallLoggerError (error_format a) ex])
  | block_stored t v w :
      template_of a self = Some t ->
      render host t = Rendered v ->
      coerce a v = Ret w ->
      block_run a self
        (Ret tt, store a w self, [CallRender a t (Rendered v)])
  | block_raised t v ex :
      template_of a self = Some t ->
      render host t = Rendered v ->
      coerce a v = Raise ex ->
      catches a ex = false ->
      block_run a self (Raise ex, self, [CallRender a t (Rendered v)]).

Fixpoint run_blocks (l : list Attr) : M unit :=
  match l with
  | [] => ret tt
  | a :: l' => block a >> run_blocks l'
  end.

End Methods.

(** ** Reading a run *)

Definition outcome_of {A} (run : Res A * TemplateHumidifier * list Event)
    : Res A :=
  fst (fst run).

Definition entity_after {A} (run : Res A * TemplateHumidifier * list Event)
    : TemplateHumidifier :=
  snd (fst run).

Definition calls_of {A} (run : Res A * TemplateHumidifier * list Event)
    : list Event :=
  snd run.

Definition attach_opt (o : option Template) : option Template :=
  match o with
  | Some t => Some (attach t)
  | None => None
  end.

(** The entity once the host has been attached to its templates. *)
Definition attach_templates (self : TemplateHumidifier) : TemplateHumidifier :=
  set_action_template (attach_opt (_action_template self))
    (set_mode_template (attach_opt (_mode_template self))
       (set_state_template (attach_opt (_state_template self))
          (set_current_humidity_template
             (attach_opt (_current_humidity_template self))
             (set_target_humidity_template
                (attach_opt (_target_humidity_template self)) self)))).

(** ** Further observations *)

(** The attributes that come from the configuration and that no method
    assigns: name, unique id, bounds, modes, scripts, features and device
    class. *)
Definition same_configuration (s1 s2 : TemplateHumidifier) : Prop :=
  _attr_name s1 = _attr_name s2 /\
  _attr_unique_id s1 = _attr_unique_id s2 /\
  _attr_min_humidity s1 = _attr_min_humidity s2 /\
  _attr_max_humidity s1 = _attr_max_humidity s2 /\
  _attr_available_modes s1 = _attr_available_modes s2 /\
  _set_target_humidity_script s1 = _set_target_humidity_script s2 /\
  _set_mode_script s1 = _set_mode_script s2 /\
  _turn_on_script s1 = _turn_on_script s2 /\
  _turn_off_script s1 = _turn_off_script s2 /\
  _attr_supported_features s1 = _attr_supported_features s2 /\
  _attr_device_class s1 = _attr_device_class s2.

Definition is_render (a : Attr) (ev : Event) : bool :=
  match ev with
  | CallRender b _ _ => Attr_eqb a b
  | _ => false
  end.

Definition is_render_or_log (ev : Event) : bool :=
  match ev with
  | CallRender _ _ _ | CallLoggerError _ _ => true
  | _ => false
  end.

Definition is_track (ev : Event) : bool :=
  match ev with
  | CallTrackStateChange _ => true
  | _ => false
  end.

(** The on/off state read off a rendered value, type by type. *)
Definition state_of_result (v : pyval) : bool :=
  match v with
  | PNone => false
  | PBool b => b
  | PInt n => negb (Z.eqb n 0)
  | PFloat x => float_eq_int x 1 || negb (float_eq_int x 0)
  | PStr s =>
      negb (existsb (String.eqb s)
              ["False"; "false"; "off"; "Off"; "OFF"; "0"; ""]%string)
  | PContainer len _ => negb (Nat.eqb len 0)
  end.

(** A humidity template whose rendered value [float()] rejects with an
    exception other than [ValueError]. *)
Definition uncaught (host : HomeAssistant) (a : Attr)
    (self : TemplateHumidifier) : Prop :=
  exists t v ex,
    template_of a self = Some t /\
    render host t = Rendered v /\
    py_float v = Raise ex /\
    ex <> ValueError.

(** The templates rendered by a list of host calls, in order, and the
    configured templates among a list of them. *)
Definition rendered_attrs (tr : list Event) : list Attr :=
  flat_map
    (fun ev =>
       match ev with
       | CallRender a _ _ => [a]
       | _ => []
       end) tr.

Definition is_configured (self : TemplateHumidifier) (a : Attr) : bool :=
  match template_of a self with
  | Some _ => true
  | None => false
  end.

Definition configured (self : TemplateHumidifier) (l : list Attr) : list Attr :=
  List.filter (is_configured self) l.


(** ** Platform setup: [async_setup_platform]

    The list handed to [async_add_entities]. *)
Definition async_setup_platform (config : ConfigType)
    : list TemplateHumidifier :=
  [__init__ config].

End Component.

(** ** A runtime to evaluate on

    The floats with an integral value, held exactly: enough of an
    implementation of the interface to run the component on concrete
    hosts. *)

Definition IntegralFloat : PyFloat :=
  {| float := Z;
     float_of_int := fun n => Some n;
     float_of_str := fun s =>
       match NilZero.int_of_string (strip s) with
       | Some d => Some (Z.of_int d)
       | None => None
       end;
     float_eq_int := Z.eqb;
     float_str := fun x => String.append (str_of_int x) ".0" |}.

Module Examples.

#[local] Existing Instance IntegralFloat.
Local Open Scope string_scope.

Definition tpl (text : string) : Template :=
  {| template := text; hass := true |}.

(** An entity with a target-humidity template and a mode template, and no
    scripts. *)
Definition config1 : ConfigType :=
  {| conf_name := Some DEFAULT_NAME;
     conf_unique_id := None;
     conf_min_humidity := Some 40;
     conf_max_humidity := Some 70;
     conf_target_humidity_template := Some (tpl "{{ state_attr('fan.h', 'humidity') }}");
     conf_current_humidity_template := None;
     conf_state_template := None;
     conf_mode_template := Some (tpl "{{ states('select.h_mode') }}");
     conf_action_template := None;
     conf_modes := Some DEFAULT_MODES;
     conf_set_target_humidity_action := None;
     conf_set_mode_action := None;
     conf_turn_on_action := None;
     conf_turn_off_action := None |}.

Definition entity1 : TemplateHumidifier := __init__ config1.

(** A host on which the attribute read by the target-humidity template is
    missing, so that the template renders to [None], while the mode
    template renders to ["auto"]. *)
Definition host_none : HomeAssistant :=
  {| render := fun t =>
       if String.eqb (template t) "{{ states('select.h_mode') }}"
       then Rendered (PStr "auto")
       else Rendered PNone;
     render_to_info := fun t => Info ∅ |}.

(** The same entity with a state template and the four scripts. *)
Definition config2 : ConfigType :=
  {| conf_name := Some "Bedroom";
     conf_unique_id := Some "bedroom_humidifier";
     conf_min_humidity := Some 30;
     conf_max_humidity := Some 80;
     conf_target_humidity_template := Some (tpl "{{ state_attr('fan.h', 'humidity') }}");
     conf_current_humidity_template := Some (tpl "{{ states('sensor.h') }}");
     conf_state_template := Some (tpl "{{ states('fan.h') }}");
     conf_mode_template := Some (tpl "{{ states('select.h_mode') }}");
     conf_action_template := None;
     conf_modes := Some ["auto"; "sleep"];
     conf_set_target_humidity_action := Some ["number.set_value"];
     conf_set_mode_action := Some ["select.select_option"];
     conf_turn_on_action := Some ["fan.turn_on"];
     conf_turn_off_action := Some ["fan.turn_off"] |}.

Definition entity2 : TemplateHumidifier := __init__ config2.

(** A host on which the mode template fails to render and every other
    template renders to [45]. *)
Definition host_mode_fails : HomeAssistant :=
  {| render := fun t =>
       if String.eqb (template t) "{{ states('select.h_mode') }}"
       then RenderFailed "UndefinedError: 'states' is undefined"
       else Rendered (PInt 45);
     render_to_info := fun t =>
       if String.eqb (template t) "{{ states('select.h_mode') }}"
       then InfoFailed "UndefinedError: 'states' is undefined"
       else Info {[ "fan.h" ]} |}.

(** A host on which the humidity templates render to a text that is not a
    number, and the others to ["auto"]. *)
Definition host_unknown : HomeAssistant :=
  {| render := fun t =>
       if String.eqb (template t) "{{ states('select.h_mode') }}"
       then Rendered (PStr " auto ")
       else Rendered (PStr "unknown");
     render_to_info := fun t => Info {[ "fan.h"; "sensor.h" ]} |}.

(** An entity with no template at all: everything it shows comes from the
    control operations. *)
Definition config3 : ConfigType :=
  {| conf_name := Some "Plain";
     conf_unique_id := None;
     conf_min_humidity := Some 40;
     conf_max_humidity := Some 70;
     conf_target_humidity_template := None;
     conf_current_humidity_template := None;
     conf_state_template := None;
     conf_mode_template := None;
     conf_action_template := None;
     conf_modes := Some [];
     conf_set_target_humidity_action := None;
     conf_set_mode_action := None;
     conf_turn_on_action := None;
     conf_turn_off_action := None |}.

Definition entity3 : TemplateHumidifier := __init__ config3.

End Examples.

(** * Properties *)

Section Properties.

Context `{PyFloat}.

(** ** The five [try] statements have the shape of [block] *)

Lemma try_state_template_block host self :
  try_state_template host self = block host State self.
Proof.
  unfold try_state_template, block, try_except, bind, get, if_set,
    async_render, _LOGGER_error, call, modify, ret; cbn -[py_in py_bool].
  destruct (_state_template self) as [t|]; [|reflexivity].
  destruct (render host t) as [v|msg]; cbn -[py_in py_bool]; [|reflexivity].
  repeat match goal with
         | |- context [py_in v ?l] => destruct (py_in v l)
         end; reflexivity.
Qed.

Lemma try_target_humidity_template_block host self :
  try_target_humidity_template host self = block host TargetHumidity self.
Proof.
  unfold try_target_humidity_template, block, try_except, bind, get, if_set,
    async_render, _LOGGER_error, call, modify, ret, lift, raise; simpl.
  destruct (_target_humidity_template self) as [t|]; [|reflexivity].
  destruct (render host t) as [v|msg]; simpl; [|reflexivity].
  destruct (py_float v) as [x|ex]; simpl; [reflexivity|].
  destruct ex; reflexivity.
Qed.

Lemma try_current_humidity_template_block host self :
  try_current_humidity_template host self = block host CurrentHumidity self.
Proof.
  unfold try_current_humidity_template, block, try_except, bind, get, if_set,
    async_render, _LOGGER_error, call, modify, ret, lift, raise; simpl.
  destruct (_current_humidity_template self) as [t|]; [|reflexivity].
  destruct (render host t) as [v|msg]; simpl; [|reflexivity].
  destruct (py_float v) as [x|ex]; simpl; [reflexivity|].
  destruct ex; reflexivity.
Qed.

Lemma try_mode_template_block host self :
  try_mode_template host self = block host Mode self.
Proof.
  unfold try_mode_template, block, try_except, bind, get, if_set,
    async_render, _LOGGER_error, call, modify, ret; simpl.
  destruct (_mode_template self) as [t|]; [|reflexivity].
  destruct (render host t) as [v|msg]; reflexivity.
Qed.

Lemma try_action_template_block host self :
  try_action_template host self = block host Action self.
Proof.
  unfold try_action_template, block, try_except, bind, get, if_set,
    async_render, _LOGGER_error, call, modify, ret; simpl.
  destruct (_action_template self) as [t|]; [|reflexivity].
  destruct (render host t) as [v|msg]; reflexivity.
Qed.

Lemma bind_ext {A B} (m m' : M A) (k k' : A -> M B) self :
  m self = m' self ->
  (forall a s, k a s = k' a s) ->
  bind m k self = bind m' k' self.
Proof.
  intros Hm Hk. unfold bind. rewrite Hm.
  destruct (m' self) as [[[a|ex] s1] tr1]; [|reflexivity].
  rewrite Hk. reflexivity.
Qed.

Lemma bind_ret_r (m : M unit) self :
  bind m (fun _ => ret tt) self = m self.
Proof.
  unfold bind, ret.
  destruct (m self) as [[[[]|ex] s1] tr1]; [|reflexivity].
  rewrite app_nil_r. reflexivity.
Qed.

Lemma _update_state_blocks host self :
  _update_state host self = run_blocks host all_attrs self.
Proof.
  unfold _update_state, all_attrs; simpl.
  apply bind_ext; [apply try_state_template_block|]. intros _ s1.
  apply bind_ext; [apply try_target_humidity_template_block|]. intros _ s2.
  apply bind_ext; [apply try_current_humidity_template_block|]. intros _ s3.
  apply bind_ext; [apply try_mode_template_block|]. intros _ s4.
  rewrite bind_ret_r. apply try_action_template_block.
Qed.

(** ** Assignments and observations *)

Lemma Attr_eqb_refl a : Attr_eqb a a = true.
Proof. destruct a; reflexivity. Qed.

Lemma Attr_eqb_neq a b : a <> b -> Attr_eqb a b = false.
Proof. destruct a, b; intros Hne; try reflexivity; congruence. Qed.

Lemma Attr_eq_dec (a b : Attr) : {a = b} + {a <> b}.
Proof. decide equality. Qed.

Lemma error_format_neq a b :
  a <> b -> String.eqb (error_format b) (error_format a) = false.
Proof. destruct a, b; intros Hne; try reflexivity; congruence. Qed.

Lemma template_of_store c a (w : pyval) self :
  template_of c (store a w self) = template_of c self.
Proof. destruct c, a; try reflexivity; destruct w; reflexivity. Qed.

Lemma attr_of_store_other a b (w : pyval) self :
  a <> b -> attr_of a (store b w self) = attr_of a self.
Proof.
  destruct a, b; intros Hne; try congruence; try reflexivity;
    destruct w; reflexivity.
Qed.

Lemma attr_of_store a v (w : pyval) self :
  coerce a v = Ret w -> attr_of a (store a w self) = w.
Proof.
  destruct a; cbn -[py_in py_bool]; intros Hc; try reflexivity.
  repeat match type of Hc with
         | context [py_in v ?l] => destruct (py_in v l)
         end; inversion Hc; reflexivity.
Qed.

Lemma template_of_set_template a o self :
  template_of a (set_template a o self) = o.
Proof. destruct a; reflexivity. Qed.

Lemma template_of_set_template_other a b o self :
  a <> b -> template_of b (set_template a o self) = template_of b self.
Proof. destruct a, b; intros Hne; try congruence; reflexivity. Qed.

Lemma attr_of_set_template a b o self :
  attr_of b (set_template a o self) = attr_of b self.
Proof. destruct a, b; reflexivity. Qed.

Lemma store_set_template a b o (w : pyval) self :
  store b w (set_template a o self) = set_template a o (store b w self).
Proof. destruct a, b; try reflexivity; destruct w; reflexivity. Qed.

(** ** One [try] statement *)

Lemma block_inv host a self : block_run host a self (block host a self).
Proof.
  unfold block.
  destruct (template_of a self) as [t|] eqn:Ht; [|now constructor].
  destruct (render host t) as [v|msg] eqn:Hr.
  - destruct (coerce a v) as [w|ex] eqn:Hc.
    + eapply block_stored; eassumption.
    + destruct (catches a ex) eqn:Hx.
      * eapply block_handled; [eassumption..|].
        unfold failure_of. rewrite Hc, Hx. reflexivity.
      * eapply block_raised; eassumption.
  - eapply block_handled; [eassumption..|]. reflexivity.
Qed.

Lemma block_set_template_other host a b o self :
  a <> b ->
  block host b (set_template a o self) =
  match block host b self with
  | (r, s1, tr1) => (r, set_template a o s1, tr1)
  end.
Proof.
  intros Hne. unfold block.
  rewrite template_of_set_template_other by assumption.
  destruct (template_of b self) as [t|]; [|reflexivity].
  destruct (render host t) as [v|msg]; [|reflexivity].
  destruct (coerce b v) as [w|ex].
  - rewrite store_set_template. reflexivity.
  - destruct (catches b ex); reflexivity.
Qed.

Lemma block_templates host b self r s1 tr1 c :
  block host b self = (r, s1, tr1) ->
  template_of c s1 = template_of c self.
Proof.
  intros Hb. pose proof (block_inv host b self) as Hi. rewrite Hb in Hi.
  inversion Hi; subst; try reflexivity. apply template_of_store.
Qed.

Lemma block_attr_other host a b self r s1 tr1 :
  a <> b ->
  block host b self = (r, s1, tr1) ->
  attr_of a s1 = attr_of a self.
Proof.
  intros Hne Hb. pose proof (block_inv host b self) as Hi. rewrite Hb in Hi.
  inversion Hi; subst; try reflexivity. now apply attr_of_store_other.
Qed.

Lemma block_quiet_other host a b self r s1 tr1 ev :
  a <> b ->
  block host b self = (r, s1, tr1) ->
  In ev tr1 -> about a ev = false.
Proof.
  intros Hne Hb Hin. pose proof (block_inv host b self) as Hi.
  rewrite Hb in Hi.
  inversion Hi; subst; simpl in Hin;
    repeat (destruct Hin as [<-|Hin]); try contradiction; simpl;
    auto using Attr_eqb_neq, error_format_neq.
Qed.

Lemma block_unconfigured host a self :
  template_of a self = None -> block host a self = (Ret tt, self, []).
Proof. intros Ht. unfold block. rewrite Ht. reflexivity. Qed.

(** ** A run of [try] statements *)

Lemma run_blocks_cons host b l self :
  run_blocks host (b :: l) self =
  match block host b self with
  | (Ret _, s1, tr1) =>
      match run_blocks host l s1 with
      | (r, s2, tr2) => (r, s2, tr1 ++ tr2)
      end
  | (Raise ex, s1, tr1) => (Raise ex, s1, tr1)
  end.
Proof. reflexivity. Qed.

Lemma run_blocks_templates host l c :
  forall self r s' tr,
    run_blocks host l self = (r, s', tr) ->
    template_of c s' = template_of c self.
Proof.
  induction l as [|b l IH]; intros self r s' tr Hrun.
  - inversion Hrun; reflexivity.
  - rewrite run_blocks_cons in Hrun.
    destruct (block host b self) as [[[[]|ex] s1] tr1] eqn:Hb.
    + destruct (run_blocks host l s1) as [[r2 s2] tr2] eqn:Hl.
      inversion Hrun; subst.
      rewrite (IH _ _ _ _ Hl). eapply block_templates; eassumption.
    + inversion Hrun; subst. eapply block_templates; eassumption.
Qed.

(** A template that is not configured: its attribute stays, and nothing is
    asked of the host on its behalf. *)
Lemma run_blocks_unconfigured host a l :
  forall self r s' tr,
    template_of a self = None ->
    run_blocks host l self = (r, s', tr) ->
    attr_of a s' = attr_of a self /\
    (forall ev, In ev tr -> about a ev = false).
Proof.
  induction l as [|b l IH]; intros self r s' tr Hnone Hrun.
  - inversion Hrun; subst. split; [reflexivity|]. intros ev [].
  - rewrite run_blocks_cons in Hrun.
    assert (Hstep : forall r1 s1 tr1,
               block host b self = (r1, s1, tr1) ->
               attr_of a s1 = attr_of a self /\
               (forall ev, In ev tr1 -> about a ev = false)).
    { intros r1 s1 tr1 Hb. destruct (Attr_eq_dec a b) as [->|Hne].
      - rewrite block_unconfigured in Hb by assumption.
        inversion Hb; subst. split; [reflexivity|]. intros ev [].
      - split; [eapply block_attr_other; eassumption|].
        intros ev. eapply block_quiet_other; eassumption. }
    destruct (block host b self) as [[[[]|ex] s1] tr1] eqn:Hb.
    + destruct (Hstep _ _ _ eq_refl) as [Hattr Hquiet].
      destruct (run_blocks host l s1) as [[r2 s2] tr2] eqn:Hl.
      inversion Hrun; subst.
      assert (Hnone1 : template_of a s1 = None).
      { rewrite (block_templates _ _ _ _ _ _ a Hb). assumption. }
      destruct (IH _ _ _ _ Hnone1 Hl) as [Hattr2 Hquiet2].
      split; [congruence|].
      intros ev Hin. apply in_app_or in Hin. destruct Hin; auto.
    + inversion Hrun; subst. apply (Hstep _ _ _ eq_refl).
Qed.

(** The statements other than the one of [a] do not look at the template
    of [a], do not assign its attribute and ask nothing on its behalf. *)
Lemma run_blocks_other host a o l :
  ~ In a l ->
  forall self r s' tr,
    run_blocks host l self = (r, s', tr) ->
    attr_of a s' = attr_of a self /\
    (forall ev, In ev tr -> about a ev = false) /\
    run_blocks host l (set_template a o self) = (r, set_template a o s', tr).
Proof.
  induction l as [|b l IH]; intros Hnotin self r s' tr Hrun.
  - inversion Hrun; subst. repeat split. intros ev [].
  - assert (Hne : a <> b) by (intros ->; apply Hnotin; now left).
    assert (Hnotin' : ~ In a l) by (intros Hin; apply Hnotin; now right).
    rewrite run_blocks_cons in Hrun. rewrite run_blocks_cons.
    rewrite block_set_template_other by assumption.
    destruct (block host b self) as [[[[]|ex] s1] tr1] eqn:Hb.
    + destruct (run_blocks host l s1) as [[r2 s2] tr2] eqn:Hl.
      inversion Hrun; subst.
      destruct (IH Hnotin' _ _ _ _ Hl) as (Hattr2 & Hquiet2 & Heq2).
      rewrite Heq2. repeat split.
      * rewrite Hattr2. eapply block_attr_other; eassumption.
      * intros ev Hin. apply in_app_or in Hin. destruct Hin as [Hin|Hin];
          [eapply block_quiet_other; eassumption|auto].
    + inversion Hrun; subst. repeat split.
      * eapply block_attr_other; eassumption.
      * intros ev. eapply block_quiet_other; eassumption.
Qed.

Lemma filter_quiet a tr :
  (forall ev, In ev tr -> about a ev = false) ->
  List.filter (fun ev => negb (about a ev)) tr = tr.
Proof.
  induction tr as [|ev tr IH]; intros Hq; [reflexivity|].
  simpl. rewrite (Hq ev) by now left. simpl. f_equal.
  apply IH. intros ev' Hin. apply Hq. now right.
Qed.

Lemma about_render_self a t o : about a (CallRender a t o) = true.
Proof. apply Attr_eqb_refl. Qed.

Lemma about_log_self a ex :
  about a (CallLoggerError (error_format a) ex) = true.
Proof. apply String.eqb_refl. Qed.

(** A failure that the [try] statement of [a] handles: the attribute stays,
    the failure is logged, and the run is otherwise the run of the entity
    without that template. *)
Lemma run_blocks_handled host a l :
  List.NoDup l ->
  forall self r s' tr t o ex,
    run_blocks host l self = (r, s', tr) ->
    In (CallRender a t o) tr ->
    failure_of a o = Some ex ->
    attr_of a s' = attr_of a self /\
    In (CallLoggerError (error_format a) ex) tr /\
    run_blocks host l (set_template a None self) =
      (r, set_template a None s',
       List.filter (fun ev => negb (about a ev)) tr).
Proof.
  induction l as [|b l IH]; intros Hnd self r s' tr t o ex Hrun Hin Hfail.
  - inversion Hrun; subst. destruct Hin.
  - apply List.NoDup_cons_iff in Hnd. destruct Hnd as [Hnotin Hnd].
    rewrite run_blocks_cons in Hrun. rewrite run_blocks_cons.
    destruct (Attr_eq_dec a b) as [<-|Hne].
    + (* the statement of [a] itself *)
      rewrite (block_unconfigured host a (set_template a None self))
        by apply template_of_set_template.
      pose proof (block_inv host a self) as Hi.
      destruct (block host a self) as [[r1 s1] tr1].
      inversion Hi as [Ht | t0 o0 ex0 Ht Hr Hf | t0 v w Ht Hr Hc
                      | t0 v ex0 Ht Hr Hc Hx]; subst.
      * match type of Hrun with
        | context [run_blocks host l ?s] =>
            destruct (run_blocks host l s) as [[r2 s2] tr2] eqn:Hl
        end.
        inversion Hrun; subst.
        destruct (run_blocks_other host a None l Hnotin _ _ _ _ Hl)
          as (_ & Hquiet & _).
        apply Hquiet in Hin. rewrite about_render_self in Hin. discriminate.
      * match type of Hrun with
        | context [run_blocks host l ?s] =>
            destruct (run_blocks host l s) as [[r2 s2] tr2] eqn:Hl
        end.
        inversion Hrun; subst.
        destruct (run_blocks_other host a None l Hnotin _ _ _ _ Hl)
          as (Hattr & Hquiet & Heq).
        assert (Hex : ex0 = ex).
        { simpl in Hin. destruct Hin as [Heq1|[Heq1|Hin]].
          - inversion Heq1; subst. congruence.
          - discriminate.
          - apply Hquiet in Hin. rewrite about_render_self in Hin.
            discriminate. }
        subst ex0. rewrite Heq. repeat split.
        -- assumption.
        -- simpl. right. now left.
        -- cbn [List.filter app].
           rewrite about_render_self, about_log_self. cbn [negb].
           rewrite filter_quiet by assumption. reflexivity.
      * match type of Hrun with
        | context [run_blocks host l ?s] =>
            destruct (run_blocks host l s) as [[r2 s2] tr2] eqn:Hl
        end.
        inversion Hrun; subst.
        destruct (run_blocks_other host a None l Hnotin _ _ _ _ Hl)
          as (_ & Hquiet & _).
        simpl in Hin. destruct Hin as [Heq1|Hin].
        -- inversion Heq1; subst. simpl in Hfail. rewrite Hc in Hfail.
           discriminate.
        -- apply Hquiet in Hin. rewrite about_render_self in Hin.
           discriminate.
      * inversion Hrun; subst. simpl in Hin. destruct Hin as [Heq1|[]].
        inversion Heq1; subst. simpl in Hfail. rewrite Hc, Hx in Hfail.
        discriminate.
    + (* another statement *)
      rewrite block_set_template_other by assumption.
      destruct (block host b self) as [[[[]|exb] s1] tr1] eqn:Hb.
      * destruct (run_blocks host l s1) as [[r2 s2] tr2] eqn:Hl.
        inversion Hrun; subst.
        assert (Hq1 : forall ev, In ev tr1 -> about a ev = false).
        { intros ev. eapply block_quiet_other; eassumption. }
        apply in_app_or in Hin. destruct Hin as [Hin|Hin].
        { apply Hq1 in Hin. rewrite about_render_self in Hin.
          discriminate. }
        destruct (IH Hnd _ _ _ _ _ _ _ Hl Hin Hfail) as (Hattr & Hlog & Heq).
        rewrite Heq. repeat split.
        -- rewrite Hattr. eapply block_attr_other; eassumption.
        -- apply in_or_app. now right.
        -- rewrite List.filter_app, (filter_quiet a tr1) by assumption.
           reflexivity.
      * inversion Hrun; subst.
        eapply block_quiet_other in Hin; [|eassumption..].
        rewrite about_render_self in Hin. discriminate.
Qed.


(** A rendered value that is converted: it is what the attribute holds when
    the run ends, and nothing is logged for that template. *)
Lemma run_blocks_stored host a l :
  List.NoDup l ->
  forall self r s' tr t v (w : pyval),
    run_blocks host l self = (r, s', tr) ->
    In (CallRender a t (Rendered v)) tr ->
    coerce a v = Ret w ->
    attr_of a s' = w /\
    (forall ex, ~ In (CallLoggerError (error_format a) ex) tr).
Proof.
  induction l as [|b l IH]; intros Hnd self r s' tr t v w Hrun Hin Hco.
  - inversion Hrun; subst. destruct Hin.
  - apply List.NoDup_cons_iff in Hnd. destruct Hnd as [Hnotin Hnd].
    rewrite run_blocks_cons in Hrun.
    destruct (Attr_eq_dec a b) as [<-|Hne].
    + pose proof (block_inv host a self) as Hi.
      destruct (block host a self) as [[r1 s1] tr1].
      inversion Hi as [Ht | t0 o0 ex0 Ht Hr Hf | t0 v0 w0 Ht Hr Hc
                      | t0 v0 ex0 Ht Hr Hc Hx]; subst.
      * match type of Hrun with
        | context [run_blocks host l ?s] =>
            destruct (run_blocks host l s) as [[r2 s2] tr2] eqn:Hl
        end.
        inversion Hrun; subst.
        destruct (run_blocks_other host a None l Hnotin _ _ _ _ Hl)
          as (_ & Hquiet & _).
        apply Hquiet in Hin. rewrite about_render_self in Hin. discriminate.
      * match type of Hrun with
        | context [run_blocks host l ?s] =>
            destruct (run_blocks host l s) as [[r2 s2] tr2] eqn:Hl
        end.
        inversion Hrun; subst.
        destruct (run_blocks_other host a None l Hnotin _ _ _ _ Hl)
          as (_ & Hquiet & _).
        simpl in Hin. destruct Hin as [Heq1|[Heq1|Hin]].
        -- inversion Heq1 as [[Ht0 Ho0]]. rewrite Ht0, Ho0 in Hf.
           simpl in Hf. rewrite Hco in Hf. discriminate.
        -- discriminate.
        -- apply Hquiet in Hin. rewrite about_render_self in Hin.
           discriminate.
      * match type of Hrun with
        | context [run_blocks host l ?s] =>
            destruct (run_blocks host l s) as [[r2 s2] tr2] eqn:Hl
        end.
        inversion Hrun; subst.
        destruct (run_blocks_other host a None l Hnotin _ _ _ _ Hl)
          as (Hattr & Hquiet & _).
        assert (Hw : w0 = w).
        { simpl in Hin. destruct Hin as [Heq1|Hin].
          - inversion Heq1; subst. congruence.
          - apply Hquiet in Hin. rewrite about_render_self in Hin.
            discriminate. }
        subst w0. split.
        -- rewrite Hattr. eapply attr_of_store; eassumption.
        -- intros ex Hlog. simpl in Hlog. destruct Hlog as [Heq1|Hlog];
             [discriminate|].
           apply Hquiet in Hlog. rewrite about_log_self in Hlog.
           discriminate.
      * inversion Hrun; subst. simpl in Hin. destruct Hin as [Heq1|[]].
        inversion Heq1; subst. congruence.
    + destruct (block host b self) as [[[[]|exb] s1] tr1] eqn:Hb.
      * destruct (run_blocks host l s1) as [[r2 s2] tr2] eqn:Hl.
        inversion Hrun; subst.
        assert (Hq1 : forall ev, In ev tr1 -> about a ev = false).
        { intros ev. eapply block_quiet_other; eassumption. }
        apply in_app_or in Hin. destruct Hin as [Hin|Hin].
        { apply Hq1 in Hin. rewrite about_render_self in Hin.
          discriminate. }
        destruct (IH Hnd _ _ _ _ _ _ _ Hl Hin Hco) as (Hattr & Hnolog).
        split; [assumption|].
        intros ex Hlog. apply in_app_or in Hlog.
        destruct Hlog as [Hlog|Hlog].
        -- apply Hq1 in Hlog. rewrite about_log_self in Hlog. discriminate.
        -- exact (Hnolog ex Hlog).
      * inversion Hrun; subst.
        eapply block_quiet_other in Hin; [|eassumption..].
        rewrite about_render_self in Hin. discriminate.
Qed.

(** A run that returns has rendered every configured template. *)
Lemma run_blocks_returns host l :
  forall self s' tr b t,
    run_blocks host l self = (Ret tt, s', tr) ->
    In b l ->
    template_of b self = Some t ->
    In (CallRender b t (render host t)) tr.
Proof.
  induction l as [|c l IH]; intros self s' tr b t Hrun Hin Ht.
  - destruct Hin.
  - rewrite run_blocks_cons in Hrun.
    pose proof (block_inv host c self) as Hi.
    destruct (block host c self) as [[[[]|exb] s1] tr1] eqn:Hb;
      [|discriminate].
    destruct (run_blocks host l s1) as [[r2 s2] tr2] eqn:Hl.
    inversion Hrun; subst. apply in_or_app.
    destruct Hin as [->|Hin].
    + left. inversion Hi; subst; try congruence;
        match goal with
        | H1 : template_of b _ = Some ?t1, H2 : template_of b _ = Some ?t2
          |- _ => rewrite H1 in H2; inversion H2; subst
        end.
      * now left.
      * match goal with H : render host _ = _ |- _ => rewrite H end.
        now left.
    + right. eapply IH; [eassumption..|].
      rewrite (block_templates _ _ _ _ _ _ b Hb). assumption.
Qed.

Lemma NoDup_all_attrs : List.NoDup all_attrs.
Proof.
  unfold all_attrs.
  repeat (apply List.NoDup_cons; [simpl; intuition discriminate|]).
  apply List.NoDup_nil.
Qed.

Lemma run_eta {A} (run : Res A * TemplateHumidifier * list Event) :
  run = (outcome_of run, entity_after run, calls_of run).
Proof. destruct run as [[r s] tr]. reflexivity. Qed.

(** ** Control operations *)

(** C1. When the script of a control operation is not configured, the
    operation writes optimistically: [async_set_humidity] assigns the given
    humidity to the target-humidity attribute, [async_set_mode] the given
    mode to the mode attribute, [async_turn_on] turns the state on,
    [async_turn_off] turns it off; each then writes the entity state, as it
    is after the assignment, to the host, and does nothing else. *)
Theorem control_without_script_writes_optimistically
    (self : TemplateHumidifier) (humidity mode : pyval) :
  (_set_target_humidity_script self = None ->
   let self' := set_attr_target_humidity humidity self in
   async_set_humidity humidity self = (Ret tt, self', [CallWriteHaState self'])
   /\ _attr_target_humidity self' = humidity) /\
  (_set_mode_script self = None ->
   let self' := set_attr_mode mode self in
   async_set_mode mode self = (Ret tt, self', [CallWriteHaState self'])
   /\ _attr_mode self' = mode) /\
  (_turn_on_script self = None ->
   let self' := set_state true self in
   async_turn_on self = (Ret tt, self', [CallWriteHaState self'])
   /\ is_on self' = true) /\
  (_turn_off_script self = None ->
   let self' := set_state false self in
   async_turn_off self = (Ret tt, self', [CallWriteHaState self'])
   /\ is_on self' = false).
Proof.
  unfold async_set_humidity, async_set_mode, async_turn_on, async_turn_off,
    bind, get, modify, async_write_ha_state.
  repeat match goal with |- _ /\ _ => split end;
    intros Hnone; rewrite Hnone; split; reflexivity.
Qed.

(** C2. When the script of a control operation is configured, the operation
    runs that script, with [{"humidity": humidity}] for
    [async_set_humidity], [{"mode": mode}] for [async_set_mode] and no
    variables for the other two, and the entity is left as it was: nothing
    is assigned and the state is not written. *)
Theorem control_with_script_runs_script_only
    (self : TemplateHumidifier) (humidity mode : pyval) (s : Script) :
  (_set_target_humidity_script self = Some s ->
   async_set_humidity humidity self =
     (Ret tt, self, [CallScriptRun s (Some [("humidity"%string, humidity)])])) /\
  (_set_mode_script self = Some s ->
   async_set_mode mode self =
     (Ret tt, self, [CallScriptRun s (Some [("mode"%string, mode)])])) /\
  (_turn_on_script self = Some s ->
   async_turn_on self = (Ret tt, self, [CallScriptRun s None])) /\
  (_turn_off_script self = Some s ->
   async_turn_off self = (Ret tt, self, [CallScriptRun s None])).
Proof.
  unfold async_set_humidity, async_set_mode, async_turn_on, async_turn_off,
    bind, get, async_run, call.
  repeat match goal with |- _ /\ _ => split end;
    intros Hsome; rewrite Hsome; reflexivity.
Qed.

(** ** Construction *)

(** C9. Right after construction the target humidity, the current humidity,
    the mode and the action are [None], [is_on] is [False], and the [MODES]
    feature is set exactly when the configured list of modes is not
    empty; no other feature is ever set. *)
Theorem fresh_entity (config : ConfigType) :
  let self := __init__ config in
  _attr_target_humidity self = PNone /\
  _attr_current_humidity self = PNone /\
  _attr_mode self = PNone /\
  _attr_action self = PNone /\
  is_on self = false /\
  (Z.land (_attr_supported_features self) MODES = MODES <->
   exists m ms, conf_modes config = Some (m :: ms)) /\
  (_attr_supported_features self = MODES \/ _attr_supported_features self = 0).
Proof.
  simpl. do 5 (split; [reflexivity|]). split; [split|].
  - destruct (conf_modes config) as [[|m ms]|]; simpl; intros Hm;
      try discriminate. eauto.
  - intros (m & ms & ->). reflexivity.
  - destruct (conf_modes config) as [[|m ms]|]; simpl; auto.
Qed.

(** ** The recompute step *)

(** C8. A recompute leaves the attribute of every template that is not
    configured as it was, whatever the other templates do and however the
    recompute ends; nothing is rendered or logged for it. *)
Theorem unconfigured_attribute_is_kept host self (a : Attr) :
  template_of a self = None ->
  attr_of a (entity_after (_update_state host self)) = attr_of a self /\
  (forall ev, In ev (calls_of (_update_state host self)) -> about a ev = false).
Proof.
  intros Hnone. rewrite _update_state_blocks.
  destruct (run_blocks host all_attrs self) as [[r s'] tr] eqn:Hrun.
  exact (run_blocks_unconfigured host a all_attrs _ _ _ _ Hnone Hrun).
Qed.




(** When a recompute returns, every configured template has been rendered,
    and every rendered value that converts is what its attribute holds. *)
Lemma update_state_returned host self :
  outcome_of (_update_state host self) = Ret tt ->
  forall a t,
    template_of a self = Some t ->
    In (CallRender a t (render host t)) (calls_of (_update_state host self)) /\
    forall v (w : pyval),
      render host t = Rendered v ->
      coerce a v = Ret w ->
      attr_of a (entity_after (_update_state host self)) = w.
Proof.
  rewrite _update_state_blocks. intros Hret a t Ht.
  pose proof (run_eta (run_blocks host all_attrs self)) as Hrun.
  rewrite Hret in Hrun.
  assert (Hin : In (CallRender a t (render host t))
                   (calls_of (run_blocks host all_attrs self))).
  { eapply run_blocks_returns; [exact Hrun| |exact Ht].
    destruct a; simpl; auto 6. }
  split; [exact Hin|].
  intros v w Hr Hco. rewrite Hr in Hin.
  eapply run_blocks_stored; [apply NoDup_all_attrs|exact Hrun|exact Hin|exact Hco].
Qed.

(** ** The subscription step *)

Lemma gather_spec host (ts : list (option Template)) :
  forall (acc : gset string) (x : string),
    x ∈ fold_left
          (fun (entities : gset string) (template : option Template) =>
             match template with
             | Some t =>
                 match render_to_info host t with
                 | Info info_entities => entities ∪ info_entities
                 | InfoFailed _ => entities
                 end
             | None => entities
             end) ts acc <->
    x ∈ acc \/
    exists t es, In (Some t) ts /\ render_to_info host t = Info es /\ x ∈ es.
Proof.
  induction ts as [|o ts IH]; intros acc x; simpl.
  - split; [auto|]. intros [Hx|(t & es & [] & _)]. exact Hx.
  - rewrite IH. split.
    + intros [Hx|(t & es & Hin & Hinfo & Hx)].
      * destruct o as [t|]; [|now left].
        destruct (render_to_info host t) as [es|msg] eqn:Hinfo; [|now left].
        apply elem_of_union in Hx. destruct Hx as [Hx|Hx]; [now left|].
        right. exists t, es. auto.
      * right. exists t, es. auto.
    + intros [Hx|(t & es & [Heq|Hin] & Hinfo & Hx)].
      * left. destruct o as [t|]; [|exact Hx].
        destruct (render_to_info host t); [|exact Hx].
        apply elem_of_union. now left.
      * left. subst o. rewrite Hinfo. apply elem_of_union. now right.
      * right. exists t, es. auto.
Qed.

Lemma templates_listed (self : TemplateHumidifier) t :
  In (Some t)
     [ _target_humidity_template self; _current_humidity_template self;
       _state_template self; _mode_template self; _action_template self ] <->
  exists a, template_of a self = Some t.
Proof.
  split.
  - simpl. intros [Ht|[Ht|[Ht|[Ht|[Ht|[]]]]]].
    + now exists TargetHumidity.
    + now exists CurrentHumidity.
    + now exists State.
    + now exists Mode.
    + now exists Action.
  - intros [a Ht]. destruct a; simpl in *; auto 6.
Qed.

(** C5. The entities the component subscribes to are exactly those that
    some configured template references, each listed once; a template whose
    analysis raises a template error adds nothing and the others are still
    gathered.  [async_added_to_hass] registers for the changes of that list,
    computed once the host is attached to the templates, before it
    recomputes. *)
Theorem tracked_entities_are_the_referenced_ones host self :
  List.NoDup (_get_template_entities host self) /\
  (forall x : string,
     In x (_get_template_entities host self) <->
     exists a t es,
       template_of a self = Some t /\
       render_to_info host t = Info es /\
       x ∈ es) /\
  calls_of (async_added_to_hass host self) =
    CallTrackStateChange (_get_template_entities host (attach_templates self))
    :: calls_of (_update_state host (attach_templates self)).
Proof.
  split; [|split].
  - unfold _get_template_entities. apply NoDup_ListNoDup, NoDup_elements.
  - intros x. unfold _get_template_entities.
    rewrite <- list_elem_of_In, elem_of_elements, gather_spec. split.
    + intros [Hx|(t & es & Hin & Hinfo & Hx)].
      * exfalso. exact (not_elem_of_empty x Hx).
      * apply templates_listed in Hin. destruct Hin as [a Ha].
        exists a, t, es. auto.
    + intros (a & t & es & Ha & Hinfo & Hx). right. exists t, es.
      split; [|auto]. apply templates_listed. now exists a.
  - destruct self as [n u mn mx md t1 t2 t3 t4 t5 s1 s2 s3 s4 a1 a2 a3 a4 st sf dc].
    unfold async_added_to_hass, attach_templates, bind, get, if_set, modify,
      ret, async_track_state_change_event, call, calls_of.
    destruct t1, t2, t3, t4, t5;
      cbv -[_update_state _get_template_entities];
      match goal with
      | |- context [_update_state host ?s] =>
          destruct (_update_state host s) as [[r s'] tr]
      end; reflexivity.
Qed.

(** ** The notification callback *)

(** When the recompute returns, the callback writes the recomputed state to
    the host and does nothing else; when it raises, the callback raises
    with it and the state is not written. *)
Lemma notification_after_recompute host self :
  match outcome_of (_update_state host self) with
  | Ret _ =>
      _async_update_state host self =
        (Ret tt, entity_after (_update_state host self),
         calls_of (_update_state host self)
         ++ [CallWriteHaState (entity_after (_update_state host self))])
  | Raise ex => _async_update_state host self = _update_state host self
  end.
Proof.
  unfold _async_update_state, bind, async_write_ha_state.
  destruct (_update_state host self) as [[[[]|ex] s'] tr]; reflexivity.
Qed.

(** ** The configuration schema *)

Lemma has_key_app k (l1 l2 : list Field) :
  has_key k (l1 ++ l2) = has_key k l1 || has_key k l2.
Proof. unfold has_key. apply existsb_app. Qed.

Lemma has_key_extend_base k (base fields : list Field) :
  has_key k (List.filter (fun f => negb (has_key (key f) fields)) base) =
  has_key k base && negb (has_key k fields).
Proof.
  induction base as [|f base IH]; [reflexivity|].
  simpl. destruct (has_key (key f) fields) eqn:Hf; simpl.
  - rewrite IH. destruct (String.eqb (key f) k) eqn:Hk; simpl; [|reflexivity].
    apply String.eqb_eq in Hk. subst k. rewrite Hf. simpl.
    apply andb_false_r.
  - rewrite IH. destruct (String.eqb (key f) k) eqn:Hk; simpl; [|reflexivity].
    apply String.eqb_eq in Hk. subst k. rewrite Hf. reflexivity.
Qed.

Lemma lookup_extend k (base fields : list Field) :
  has_key k fields = true ->
  lookup_field k (extend base fields) = lookup_field k fields.
Proof.
  intros Hk. unfold lookup_field, extend.
  induction base as [|f base IH]; [reflexivity|].
  simpl. destruct (has_key (key f) fields) eqn:Hf; simpl; [exact IH|].
  destruct (String.eqb (key f) k) eqn:Hfk; [|exact IH].
  apply String.eqb_eq in Hfk. congruence.
Qed.

(** C6. The schema adds to the host's platform schema exactly fourteen
    fields, all optional: the name (a string, ["Template Humidifier"] by
    default), the unique id (a string), the humidity bounds (coerced to
    float, [40] and [70] by default), the list of modes (the nine standard
    modes by default), five templates and four scripts, without defaults. *)
Theorem schema_fields (base : list Field) :
  map key PLATFORM_SCHEMA_fields =
    [ "name"; "unique_id"; "min_humidity"; "max_humidity";
      "target_humidity_template"; "current_humidity_template";
      "state_template"; "mode_template"; "action_template"; "modes";
      "set_target_humidity_action"; "set_mode_action"; "turn_on_action";
      "turn_off_action" ]%string /\
  (forall f, In f PLATFORM_SCHEMA_fields -> required f = false) /\
  lookup_field "name" PLATFORM_SCHEMA_fields =
    Some (Optional "name" (Some (DefaultStr "Template Humidifier")) cv_string) /\
  lookup_field "unique_id" PLATFORM_SCHEMA_fields =
    Some (Optional "unique_id" None cv_string) /\
  lookup_field "min_humidity" PLATFORM_SCHEMA_fields =
    Some (Optional "min_humidity" (Some (DefaultInt 40)) Coerce_float) /\
  lookup_field "max_humidity" PLATFORM_SCHEMA_fields =
    Some (Optional "max_humidity" (Some (DefaultInt 70)) Coerce_float) /\
  lookup_field "modes" PLATFORM_SCHEMA_fields =
    Some (Optional "modes"
            (Some (DefaultList
                     ["normal"; "eco"; "away"; "boost"; "comfort"; "home";
                      "sleep"; "auto"; "baby"]%string))
            cv_ensure_list) /\
  (forall k,
     In k ["target_humidity_template"; "current_humidity_template";
           "state_template"; "mode_template"; "action_template"]%string ->
     lookup_field k PLATFORM_SCHEMA_fields = Some (Optional k None cv_template)) /\
  (forall k,
     In k ["set_target_humidity_action"; "set_mode_action"; "turn_on_action";
           "turn_off_action"]%string ->
     lookup_field k PLATFORM_SCHEMA_fields =
       Some (Optional k None cv_SCRIPT_SCHEMA)) /\
  (forall k,
     has_key k (PLATFORM_SCHEMA base) =
     has_key k base || has_key k PLATFORM_SCHEMA_fields) /\
  (forall k,
     has_key k PLATFORM_SCHEMA_fields = true ->
     lookup_field k (PLATFORM_SCHEMA base) =
     lookup_field k PLATFORM_SCHEMA_fields).
Proof.
  repeat match goal with |- _ /\ _ => split end; try reflexivity.
  - intros f Hin. simpl in Hin.
    repeat (destruct Hin as [<-|Hin]; [reflexivity|]). destruct Hin.
  - intros k Hin. simpl in Hin.
    repeat (destruct Hin as [<-|Hin]; [reflexivity|]). destruct Hin.
  - intros k Hin. simpl in Hin.
    repeat (destruct Hin as [<-|Hin]; [reflexivity|]). destruct Hin.
  - intros k. unfold PLATFORM_SCHEMA, extend.
    rewrite has_key_app, has_key_extend_base.
    destruct (has_key k base), (has_key k PLATFORM_SCHEMA_fields); reflexivity.
  - intros k Hk. apply lookup_extend. exact Hk.
Qed.

(** ** More on the recompute step *)

Lemma store_attr_of a self : store a (attr_of a self) self = self.
Proof. destruct a, self; reflexivity. Qed.

(** A [try] statement looks at the entity only through its template. *)
Lemma block_same_template host b self other :
  template_of b other = template_of b self ->
  (block host b self = (outcome_of (block host b self), self,
                        calls_of (block host b self)) /\
   block host b other = (outcome_of (block host b self), other,
                         calls_of (block host b self))) \/
  (exists v (w : pyval),
     coerce b v = Ret w /\
     block host b self = (Ret tt, store b w self,
                          calls_of (block host b self)) /\
     block host b other = (Ret tt, store b w other,
                           calls_of (block host b self))).
Proof.
  intros Hsame. unfold block. rewrite Hsame.
  destruct (template_of b self) as [t|]; [|left; split; reflexivity].
  destruct (render host t) as [v|msg]; [|left; split; reflexivity].
  destruct (coerce b v) as [w|ex] eqn:Hc.
  - right. exists v, w. split; [exact Hc|]. split; reflexivity.
  - destruct (catches b ex); left; split; reflexivity.
Qed.

Lemma run_blocks_idempotent host l :
  List.NoDup l ->
  forall self r s' tr,
    run_blocks host l self = (r, s', tr) ->
    run_blocks host l s' = (r, s', tr).
Proof.
  induction l as [|b l IH]; intros Hnd self r s' tr Hrun.
  - inversion Hrun; subst. reflexivity.
  - apply List.NoDup_cons_iff in Hnd. destruct Hnd as [Hnotin Hnd].
    rewrite run_blocks_cons in Hrun. rewrite run_blocks_cons.
    destruct (block host b self) as [[rb s1] tr1] eqn:Hb.
    destruct rb as [[]|ex].
    + destruct (run_blocks host l s1) as [[r2 s2] tr2] eqn:Hl.
      inversion Hrun; subst.
      assert (Hsame : template_of b s' = template_of b self).
      { rewrite (run_blocks_templates _ _ _ _ _ _ _ Hl).
        eapply block_templates; eassumption. }
      destruct (run_blocks_other host b None l Hnotin _ _ _ _ Hl)
        as (Hattr & _ & _).
      destruct (block_same_template host b self s' Hsame)
        as [[Hself Hother]|(v & w & Hc & Hself & Hother)];
        rewrite Hb in Hself, Hother; simpl in Hself, Hother.
      * rewrite Hother, (IH Hnd _ _ _ _ Hl). reflexivity.
      * inversion Hself; subst s1.
        rewrite (attr_of_store _ _ _ _ Hc) in Hattr.
        rewrite Hother, <- Hattr, store_attr_of, (IH Hnd _ _ _ _ Hl).
        reflexivity.
    + inversion Hrun; subst.
      pose proof (block_inv host b self) as Hi. rewrite Hb in Hi.
      inversion Hi; subst. rewrite Hb. reflexivity.
Qed.

(** X1. On a fixed host state the recompute is idempotent: run again on
    the entity it produced, it has the same outcome, makes the same host
    calls and leaves the entity as it is. *)
Theorem recompute_is_idempotent host self :
  _update_state host (entity_after (_update_state host self)) =
  _update_state host self.
Proof.
  rewrite !_update_state_blocks.
  rewrite (run_eta (run_blocks host all_attrs self)) at 2.
  eapply run_blocks_idempotent; [apply NoDup_all_attrs|apply run_eta].
Qed.

Lemma run_blocks_same_templates host l :
  forall s1 s2 r s1' tr,
    (forall c, template_of c s1 = template_of c s2) ->
    run_blocks host l s1 = (r, s1', tr) ->
    exists s2',
      run_blocks host l s2 = (r, s2', tr) /\
      forall a,
        attr_of a s1' = attr_of a s2' \/
        (attr_of a s1' = attr_of a s1 /\ attr_of a s2' = attr_of a s2).
Proof.
  induction l as [|b l IH]; intros s1 s2 r s1' tr Hsame Hrun.
  - inversion Hrun; subst. exists s2. split; [reflexivity|]. auto.
  - rewrite run_blocks_cons in Hrun. rewrite run_blocks_cons.
    assert (Hstep : exists m1 m2,
               block host b s1 = (outcome_of (block host b s1), m1,
                                  calls_of (block host b s1)) /\
               block host b s2 = (outcome_of (block host b s1), m2,
                                  calls_of (block host b s1)) /\
               (forall c, template_of c m1 = template_of c m2) /\
               (outcome_of (block host b s1) <> Ret tt ->
                m1 = s1 /\ m2 = s2) /\
               forall a,
                 attr_of a m1 = attr_of a m2 \/
                 (attr_of a m1 = attr_of a s1 /\ attr_of a m2 = attr_of a s2)).
    { destruct (block_same_template host b s1 s2 (eq_sym (Hsame b)))
        as [[H1 H2]|(v & w & Hc & H1 & H2)].
      - exists s1, s2.
        split; [exact H1|]. split; [exact H2|]. split; [exact Hsame|].
        split; [auto|]. intros a. right. auto.
      - assert (Hout : outcome_of (block host b s1) = Ret tt)
          by (rewrite H1; reflexivity).
        exists (store b w s1), (store b w s2). rewrite Hout.
        split; [exact H1|]. split; [exact H2|]. split; [|split].
        + intros c. rewrite !template_of_store. apply Hsame.
        + intros Hne. congruence.
        + intros a. destruct (Attr_eq_dec a b) as [->|Hne].
          * left. rewrite !(attr_of_store _ _ _ _ Hc). reflexivity.
          * right. split; apply attr_of_store_other; assumption. }
    destruct Hstep as (m1 & m2 & H1 & H2 & Hsame' & Hraise & Hattr).
    rewrite H1 in Hrun. rewrite H2.
    destruct (outcome_of (block host b s1)) as [[]|ex].
    + destruct (run_blocks host l m1) as [[r1 n1] tr1] eqn:Hl.
      inversion Hrun; subst.
      destruct (IH _ _ _ _ _ Hsame' Hl) as (n2 & Hl2 & Hattr2).
      exists n2. rewrite Hl2. split; [reflexivity|].
      intros a. destruct (Hattr2 a) as [Heq|[He1 He2]]; [now left|].
      destruct (Hattr a) as [Heq|[Hf1 Hf2]].
      * left. congruence.
      * right. split; congruence.
    + inversion Hrun; subst. exists m2. split; [reflexivity|].
      destruct Hraise as [-> ->]; [discriminate|]. auto.
Qed.

(** X2. The recompute reads the templates and the host, never the current
    values of the attributes: two entities with the same templates get the
    same outcome and the same host calls, and each attribute ends up equal
    in both, unless the recompute left it alone in both. *)
Theorem recompute_ignores_current_values host s1 s2 :
  (forall a, template_of a s1 = template_of a s2) ->
  outcome_of (_update_state host s1) = outcome_of (_update_state host s2) /\
  calls_of (_update_state host s1) = calls_of (_update_state host s2) /\
  forall a,
    attr_of a (entity_after (_update_state host s1)) =
    attr_of a (entity_after (_update_state host s2)) \/
    (attr_of a (entity_after (_update_state host s1)) = attr_of a s1 /\
     attr_of a (entity_after (_update_state host s2)) = attr_of a s2).
Proof.
  intros Hsame. rewrite !_update_state_blocks.
  destruct (run_blocks_same_templates host all_attrs s1 s2 _ _ _ Hsame
              (run_eta _)) as (s2' & Hrun2 & Hattr).
  rewrite Hrun2. simpl. auto.
Qed.

(** ** What the methods leave alone *)

Lemma same_configuration_refl self : same_configuration self self.
Proof. unfold same_configuration. repeat (split; [reflexivity|]). reflexivity. Qed.

Lemma same_configuration_trans s1 s2 s3 :
  same_configuration s1 s2 -> same_configuration s2 s3 ->
  same_configuration s1 s3.
Proof.
  unfold same_configuration.
  intros (A1 & A2 & A3 & A4 & A5 & A6 & A7 & A8 & A9 & A10 & A11)
         (B1 & B2 & B3 & B4 & B5 & B6 & B7 & B8 & B9 & B10 & B11).
  repeat (split; [congruence|]). congruence.
Qed.

Lemma same_configuration_store a (w : pyval) self :
  same_configuration (store a w self) self.
Proof.
  unfold same_configuration.
  destruct a; [destruct w|..]; repeat (split; [reflexivity|]); reflexivity.
Qed.

Lemma same_configuration_set_template a o self :
  same_configuration (set_template a o self) self.
Proof.
  unfold same_configuration.
  destruct a; repeat (split; [reflexivity|]); reflexivity.
Qed.

Lemma block_same_configuration host b self r s1 tr1 :
  block host b self = (r, s1, tr1) -> same_configuration s1 self.
Proof.
  intros Hb. pose proof (block_inv host b self) as Hi. rewrite Hb in Hi.
  inversion Hi; subst; try apply same_configuration_refl.
  apply same_configuration_store.
Qed.

Lemma run_blocks_same_configuration host l :
  forall self r s' tr,
    run_blocks host l self = (r, s', tr) -> same_configuration s' self.
Proof.
  induction l as [|b l IH]; intros self r s' tr Hrun.
  - inversion Hrun; subst. apply same_configuration_refl.
  - rewrite run_blocks_cons in Hrun.
    destruct (block host b self) as [[[[]|ex] s1] tr1] eqn:Hb.
    + destruct (run_blocks host l s1) as [[r2 s2] tr2] eqn:Hl.
      inversion Hrun; subst.
      eapply same_configuration_trans;
        [eapply IH; eassumption|eapply block_same_configuration; eassumption].
    + inversion Hrun; subst. eapply block_same_configuration; eassumption.
Qed.

(** [async_added_to_hass] is the recompute of the entity with the host
    attached to its templates, after the subscription. *)
Lemma added_to_hass_run host self :
  async_added_to_hass host self =
    (outcome_of (_update_state host (attach_templates self)),
     entity_after (_update_state host (attach_templates self)),
     CallTrackStateChange (_get_template_entities host (attach_templates self))
     :: calls_of (_update_state host (attach_templates self))).
Proof.
  destruct self as [n u mn mx md t1 t2 t3 t4 t5 s1 s2 s3 s4 a1 a2 a3 a4 st sf dc].
  unfold async_added_to_hass, attach_templates, bind, get, if_set, modify,
    ret, async_track_state_change_event, call, calls_of, outcome_of,
    entity_after.
  destruct t1, t2, t3, t4, t5;
    cbv -[_update_state _get_template_entities];
    match goal with
    | |- context [_update_state host ?s] =>
        destruct (_update_state host s) as [[r s'] tr]
    end; reflexivity.
Qed.

Lemma template_of_attach_templates a self :
  template_of a (attach_templates self) = attach_opt (template_of a self).
Proof. destruct a; reflexivity. Qed.

Lemma same_configuration_attach_templates self :
  same_configuration (attach_templates self) self.
Proof.
  unfold same_configuration. repeat (split; [reflexivity|]). reflexivity.
Qed.

(** X3. No method assigns the attributes that come from the
    configuration: after the recompute, the notification callback,
    [async_added_to_hass] and each control operation, the name, unique id,
    humidity bounds, modes, scripts, features and device class are what
    they were; and all of them but [async_added_to_hass] leave the
    templates as they were too. *)
Theorem methods_keep_the_configuration host self (humidity mode : pyval) :
  (same_configuration (entity_after (_update_state host self)) self /\
   same_configuration (entity_after (_async_update_state host self)) self /\
   same_configuration (entity_after (async_added_to_hass host self)) self /\
   same_configuration (entity_after (async_set_humidity humidity self)) self /\
   same_configuration (entity_after (async_set_mode mode self)) self /\
   same_configuration (entity_after (async_turn_on self)) self /\
   same_configuration (entity_after (async_turn_off self)) self) /\
  forall a,
    template_of a (entity_after (_update_state host self)) = template_of a self /\
    template_of a (entity_after (_async_update_state host self)) =
      template_of a self /\
    template_of a (entity_after (async_set_humidity humidity self)) =
      template_of a self /\
    template_of a (entity_after (async_set_mode mode self)) =
      template_of a self /\
    template_of a (entity_after (async_turn_on self)) = template_of a self /\
    template_of a (entity_after (async_turn_off self)) = template_of a self.
Proof.
  assert (Hupd : forall s,
             same_configuration (entity_after (_update_state host s)) s).
  { intros s. rewrite _update_state_blocks.
    eapply run_blocks_same_configuration. apply run_eta. }
  assert (Hcb : entity_after (_async_update_state host self) =
                entity_after (_update_state host self)).
  { pose proof (notification_after_recompute host self) as Hn.
    destruct (outcome_of (_update_state host self)); rewrite Hn; reflexivity. }
  split.
  - split; [apply Hupd|]. split; [rewrite Hcb; apply Hupd|].
    split.
    { rewrite added_to_hass_run. simpl.
      eapply same_configuration_trans;
        [apply Hupd|apply same_configuration_attach_templates]. }
    unfold async_set_humidity, async_set_mode, async_turn_on, async_turn_off,
      bind, get, modify, async_write_ha_state, async_run, call.
    destruct (_set_target_humidity_script self), (_set_mode_script self),
      (_turn_on_script self), (_turn_off_script self);
      unfold same_configuration; simpl; repeat split.
  - intros a.
    assert (Htpl : template_of a (entity_after (_update_state host self)) =
                   template_of a self).
    { rewrite _update_state_blocks.
      eapply run_blocks_templates. apply run_eta. }
    split; [exact Htpl|]. split; [rewrite Hcb; exact Htpl|].
    unfold async_set_humidity, async_set_mode, async_turn_on, async_turn_off,
      bind, get, modify, async_write_ha_state, async_run, call.
    destruct (_set_target_humidity_script self), (_set_mode_script self),
      (_turn_on_script self), (_turn_off_script self), a;
      repeat (split; [reflexivity|]); reflexivity.
Qed.

(** ** The host calls of a recompute *)

Lemma block_calls host a b self :
  (length (List.filter (is_render a) (calls_of (block host b self)))
   <= (if Attr_eqb a b then 1 else 0))%nat /\
  (length (calls_of (block host b self)) <= 2)%nat /\
  forall ev, In ev (calls_of (block host b self)) -> is_render_or_log ev = true.
Proof.
  pose proof (block_inv host b self) as Hi.
  destruct (block host b self) as [[r s1] tr1].
  inversion Hi; subst; simpl;
    destruct (Attr_eqb a b); simpl;
    (split; [lia|split; [lia|]]);
    intros ev Hin; repeat (destruct Hin as [<-|Hin]; [reflexivity|]);
    destruct Hin.
Qed.

Lemma run_blocks_calls host a l :
  forall self,
    (length (List.filter (is_render a) (calls_of (run_blocks host l self)))
     <= length (List.filter (Attr_eqb a) l))%nat /\
    (length (calls_of (run_blocks host l self)) <= 2 * length l)%nat /\
    forall ev,
      In ev (calls_of (run_blocks host l self)) -> is_render_or_log ev = true.
Proof.
  induction l as [|b l IH]; intros self.
  - simpl. split; [lia|split; [lia|]]. intros ev [].
  - rewrite run_blocks_cons.
    destruct (block_calls host a b self) as (Hb1 & Hb2 & Hb3).
    destruct (block host b self) as [[[[]|ex] s1] tr1]; simpl in Hb1, Hb2, Hb3.
    + destruct (IH s1) as (H1 & H2 & H3).
      destruct (run_blocks host l s1) as [[r2 s2] tr2];
        simpl in H1, H2, H3; simpl calls_of.
      rewrite List.filter_app, !length_app.
      change (List.filter (Attr_eqb a) (b :: l))
        with (if Attr_eqb a b then b :: List.filter (Attr_eqb a) l
              else List.filter (Attr_eqb a) l).
      change (length (b :: l)) with (S (length l)).
      split; [|split].
      * destruct (Attr_eqb a b); simpl; simpl in Hb1; lia.
      * lia.
      * intros ev Hin. apply in_app_or in Hin. destruct Hin; auto.
    + simpl calls_of.
      change (List.filter (Attr_eqb a) (b :: l))
        with (if Attr_eqb a b then b :: List.filter (Attr_eqb a) l
              else List.filter (Attr_eqb a) l).
      change (length (b :: l)) with (S (length l)).
      split; [|split].
      * destruct (Attr_eqb a b); simpl; simpl in Hb1; lia.
      * lia.
      * exact Hb3.
Qed.

(** X4. A recompute only renders templates and logs errors: it never
    writes the state, runs a script or subscribes.  It renders each
    template at most once and makes at most ten host calls. *)
Theorem recompute_calls host self :
  (forall ev,
     In ev (calls_of (_update_state host self)) -> is_render_or_log ev = true) /\
  (forall a,
     (length (List.filter (is_render a) (calls_of (_update_state host self)))
      <= 1)%nat) /\
  (length (calls_of (_update_state host self)) <= 10)%nat.
Proof.
  rewrite _update_state_blocks. split; [|split].
  - apply (run_blocks_calls host State all_attrs self).
  - intros a.
    destruct (run_blocks_calls host a all_attrs self) as (Hcount & _).
    destruct a; exact Hcount.
  - apply (run_blocks_calls host State all_attrs self).
Qed.

(** ** When the recompute raises *)

Lemma py_float_raises (v : pyval) ex :
  py_float v = Raise ex ->
  ex = ValueError \/ ex = TypeError \/ ex = OverflowError.
Proof.
  destruct v as [|b|n|x|s|len text]; simpl; intros Hf.
  - inversion Hf. auto.
  - destruct (float_of_int (int_of_bool b)); inversion Hf. auto.
  - destruct (float_of_int n); inversion Hf. auto.
  - discriminate.
  - destruct (float_of_str s); inversion Hf. auto.
  - inversion Hf. auto.
Qed.

Lemma coerce_raises a (v : pyval) ex :
  coerce a v = Raise ex ->
  (a = TargetHumidity \/ a = CurrentHumidity) /\ py_float v = Raise ex.
Proof.
  destruct a; cbn -[py_in py_bool py_float]; intros Hc.
  - repeat match type of Hc with
           | context [py_in v ?l] => destruct (py_in v l)
           end; discriminate.
  - destruct (py_float v); [discriminate|]. inversion Hc. auto.
  - destruct (py_float v); [discriminate|]. inversion Hc. auto.
  - discriminate.
  - discriminate.
Qed.

Lemma coerce_humidity a (v : pyval) ex :
  a = TargetHumidity \/ a = CurrentHumidity ->
  py_float v = Raise ex ->
  coerce a v = Raise ex /\ (ex <> ValueError -> catches a ex = false).
Proof.
  intros Ha Hf. apply py_float_raises in Hf as Hex.
  destruct Ha as [-> | ->]; simpl; rewrite Hf; (split; [reflexivity|]);
    destruct Hex as [->|[->| ->]]; intros Hne; try reflexivity; congruence.
Qed.

Lemma block_uncaught host a self :
  (a = TargetHumidity \/ a = CurrentHumidity) ->
  uncaught host a self ->
  exists ex, outcome_of (block host a self) = Raise ex.
Proof.
  intros Ha (t & v & ex & Ht & Hr & Hf & Hne).
  destruct (coerce_humidity a v ex Ha Hf) as [Hc Hx].
  unfold block. rewrite Ht, Hr, Hc, (Hx Hne). exists ex. reflexivity.
Qed.

Lemma block_raises host a self ex :
  outcome_of (block host a self) = Raise ex ->
  (a = TargetHumidity \/ a = CurrentHumidity) /\
  ex <> ValueError /\
  exists t v,
    template_of a self = Some t /\
    render host t = Rendered v /\
    py_float v = Raise ex /\
    block host a self = (Raise ex, self, [CallRender a t (Rendered v)]).
Proof.
  intros Hout. pose proof (block_inv host a self) as Hi.
  destruct (block host a self) as [[r s1] tr1]. unfold outcome_of in Hout; simpl in Hout. subst r.
  inversion Hi as [| | |t v ex0 Ht Hr Hc Hx]; subst.
  destruct (coerce_raises a v ex Hc) as [Ha Hf].
  split; [exact Ha|]. split.
  - intros ->. destruct Ha as [-> | ->]; discriminate.
  - exists t, v. auto.
Qed.

Lemma uncaught_same_template host a s1 s2 :
  template_of a s1 = template_of a s2 ->
  uncaught host a s1 -> uncaught host a s2.
Proof.
  intros Hsame (t & v & ex & Ht & Hrest). exists t, v, ex.
  rewrite <- Hsame. auto.
Qed.

Lemma run_blocks_raises host l :
  forall self ex,
    outcome_of (run_blocks host l self) = Raise ex ->
    exists a t v,
      In a l /\
      (a = TargetHumidity \/ a = CurrentHumidity) /\
      ex <> ValueError /\
      template_of a self = Some t /\
      render host t = Rendered v /\
      py_float v = Raise ex /\
      exists before,
        calls_of (run_blocks host l self) =
        before ++ [CallRender a t (Rendered v)].
Proof.
  induction l as [|b l IH]; intros self ex Hout.
  - discriminate.
  - rewrite run_blocks_cons in *.
    destruct (block host b self) as [[[[]|exb] s1] tr1] eqn:Hb.
    + destruct (run_blocks host l s1) as [[r2 s2] tr2] eqn:Hl.
      unfold outcome_of in Hout; simpl in Hout. subst r2.
      destruct (IH s1 ex) as (a & t & v & Hin & Ha & Hne & Ht & Hr & Hf
                              & before & Hcalls).
      { rewrite Hl. reflexivity. }
      rewrite Hl in Hcalls. unfold calls_of in Hcalls; simpl in Hcalls. subst tr2.
      exists a, t, v.
      split; [now right|]. split; [exact Ha|]. split; [exact Hne|].
      split.
      { rewrite <- (block_templates _ _ _ _ _ _ a Hb). exact Ht. }
      split; [exact Hr|]. split; [exact Hf|].
      exists (tr1 ++ before). unfold calls_of; simpl.
      rewrite app_assoc. reflexivity.
    + unfold outcome_of in Hout; simpl in Hout. inversion Hout; subst exb.
      destruct (block_raises host b self ex) as (Ha & Hne & t & v & Ht & Hr
                                                 & Hf & Heq).
      { rewrite Hb. reflexivity. }
      rewrite Hb in Heq. inversion Heq; subst.
      exists b, t, v.
      split; [now left|]. split; [exact Ha|]. split; [exact Hne|].
      split; [exact Ht|]. split; [exact Hr|]. split; [exact Hf|].
      exists []. reflexivity.
Qed.

Lemma uncaught_raises host self :
  uncaught host TargetHumidity self \/ uncaught host CurrentHumidity self ->
  exists ex, outcome_of (run_blocks host all_attrs self) = Raise ex.
Proof.
  intros Hunc. unfold all_attrs.
  rewrite run_blocks_cons.
  destruct (block host State self) as [[[[]|ex0] s1] tr1] eqn:Hb0.
  2:{ exists ex0. reflexivity. }
  assert (Ht1 : forall c, template_of c s1 = template_of c self).
  { intros c. eapply block_templates; eassumption. }
  destruct (run_blocks host
              [TargetHumidity; CurrentHumidity; Mode; Action] s1)
    as [[r1 n1] trn] eqn:Hl1.
  cut (exists ex, r1 = Raise ex).
  { intros [ex ->]. exists ex. reflexivity. }
  rewrite run_blocks_cons in Hl1.
  destruct (block host TargetHumidity s1) as [[[[]|ex1] s2] tr2] eqn:Hb1.
  2:{ inversion Hl1. eauto. }
  assert (Ht2 : forall c, template_of c s2 = template_of c self).
  { intros c. rewrite <- Ht1. eapply block_templates; eassumption. }
  destruct Hunc as [Hunc|Hunc].
  { destruct (block_uncaught host TargetHumidity s1 (or_introl eq_refl))
      as [ex Hex].
    - eapply uncaught_same_template; [|exact Hunc]. symmetry. apply Ht1.
    - rewrite Hb1 in Hex. discriminate. }
  destruct (run_blocks host [CurrentHumidity; Mode; Action] s2)
    as [[r2 n2] trn2] eqn:Hl2.
  inversion Hl1; subst.
  rewrite run_blocks_cons in Hl2.
  destruct (block_uncaught host CurrentHumidity s2 (or_intror eq_refl))
    as [ex Hex].
  { eapply uncaught_same_template; [|exact Hunc]. symmetry. apply Ht2. }
  destruct (block host CurrentHumidity s2) as [[rb s3] tr3].
  unfold outcome_of in Hex; simpl in Hex. subst rb. inversion Hl2. eauto.
Qed.

(** X5. The recompute raises exactly when a configured humidity template
    renders to a value that [float()] rejects with something other than
    [ValueError]; the exception is then [TypeError] or [OverflowError],
    and the rendering of that template is the last host call made. *)
Theorem recompute_raises_on_unconvertible_humidity host self :
  ((exists ex, outcome_of (_update_state host self) = Raise ex) <->
   uncaught host TargetHumidity self \/ uncaught host CurrentHumidity self) /\
  forall ex,
    outcome_of (_update_state host self) = Raise ex ->
    (ex = TypeError \/ ex = OverflowError) /\
    exists a t v before,
      (a = TargetHumidity \/ a = CurrentHumidity) /\
      template_of a self = Some t /\
      render host t = Rendered v /\
      py_float v = Raise ex /\
      calls_of (_update_state host self) =
      before ++ [CallRender a t (Rendered v)].
Proof.
  rewrite _update_state_blocks.
  assert (Hfwd : forall ex,
             outcome_of (run_blocks host all_attrs self) = Raise ex ->
             (ex = TypeError \/ ex = OverflowError) /\
             exists a t v before,
               (a = TargetHumidity \/ a = CurrentHumidity) /\
               template_of a self = Some t /\
               render host t = Rendered v /\
               py_float v = Raise ex /\
               calls_of (run_blocks host all_attrs self) =
               before ++ [CallRender a t (Rendered v)]).
  { intros ex Hout.
    destruct (run_blocks_raises host all_attrs self ex Hout)
      as (a & t & v & _ & Ha & Hne & Ht & Hr & Hf & before & Hcalls).
    split.
    - destruct (py_float_raises v ex Hf) as [->|Hex]; [congruence|exact Hex].
    - exists a, t, v, before. auto. }
  split; [|exact Hfwd]. split.
  - intros [ex Hout].
    destruct (Hfwd ex Hout) as (Hex & a & t & v & before & Ha & Ht & Hr & Hf & _).
    assert (Hunc : uncaught host a self).
    { exists t, v, ex. repeat (split; [assumption|]).
      destruct Hex as [-> | ->]; discriminate. }
    destruct Ha as [-> | ->]; auto.
  - apply uncaught_raises.
Qed.

(** X6. When no configured humidity template renders to such a value,
    the notification callback always returns: it makes the calls of the
    recompute and then, last, writes the recomputed entity to the host. *)
Theorem notification_writes_last host self :
  ~ uncaught host TargetHumidity self ->
  ~ uncaught host CurrentHumidity self ->
  _async_update_state host self =
    (Ret tt, entity_after (_update_state host self),
     calls_of (_update_state host self)
     ++ [CallWriteHaState (entity_after (_update_state host self))]).
Proof.
  intros Hnt Hnc.
  pose proof (notification_after_recompute host self) as Hn.
  destruct (outcome_of (_update_state host self)) as [[]|ex] eqn:Hout;
    [exact Hn|].
  exfalso.
  rewrite _update_state_blocks in Hout.
  destruct (run_blocks_raises host all_attrs self ex Hout)
    as (a & t & v & _ & Ha & Hne & Ht & Hr & Hf & _).
  assert (Hunc : uncaught host a self) by (exists t, v, ex; auto).
  destruct Ha as [-> | ->]; auto.
Qed.

(** ** The on/off state read off a rendered value *)

Lemma coerce_state (v : pyval) :
  coerce State v = Ret (PBool (state_of_result v)).
Proof.
  destruct v as [|b|n|x|s|len text].
  - reflexivity.
  - destruct b; reflexivity.
  - cbn. destruct (Z.eqb_spec n 1) as [->|H1]; [reflexivity|].
    destruct (Z.eqb_spec n 0) as [->|H0]; reflexivity.
  - cbn. destruct (float_eq_int x 1), (float_eq_int x 0); reflexivity.
  - cbn -[String.eqb]. unfold STATE_ON, STATE_OFF.
    destruct (String.eqb_spec s "True") as [->|_]; [reflexivity|].
    destruct (String.eqb_spec s "true") as [->|_]; [reflexivity|].
    destruct (String.eqb_spec s "on") as [->|_]; [reflexivity|].
    destruct (String.eqb_spec s "On") as [->|_]; [reflexivity|].
    destruct (String.eqb_spec s "ON") as [->|_]; [reflexivity|].
    destruct (String.eqb_spec s "1") as [->|_]; [reflexivity|].
    destruct (String.eqb_spec s "False") as [->|_]; [reflexivity|].
    destruct (String.eqb_spec s "false") as [->|_]; [reflexivity|].
    destruct (String.eqb_spec s "off") as [->|_]; [reflexivity|].
    destruct (String.eqb_spec s "Off") as [->|_]; [reflexivity|].
    destruct (String.eqb_spec s "OFF") as [->|_]; [reflexivity|].
    destruct (String.eqb_spec s "0") as [->|_]; [reflexivity|].
    destruct (String.eqb_spec s "") as [->|_]; reflexivity.
  - reflexivity.
Qed.

(** X7. When the state template renders, the entity is on or off by the
    rendered value alone: [None] is off; a boolean is itself; an integer
    is off exactly when it is zero, a float when it equals [0] and not
    [1]; a text is off exactly when it is one of
    ["False"], ["false"], ["off"], ["Off"], ["OFF"], ["0"] or empty, so any
    other text, ["unavailable"] included, is on; a list or the like is off
    exactly when it is empty. *)
Theorem state_follows_rendered_value host self t (v : pyval) :
  In (CallRender State t (Rendered v)) (calls_of (_update_state host self)) ->
  is_on (entity_after (_update_state host self)) = state_of_result v.
Proof.
  rewrite _update_state_blocks. intros Hin.
  destruct (run_blocks_stored host State all_attrs NoDup_all_attrs
              _ _ _ _ t v _ (run_eta _) Hin (coerce_state v)) as [Hattr _].
  simpl in Hattr. inversion Hattr. reflexivity.
Qed.

(** ** The mode is stripped *)

Lemma lstrip_starts s : starts_with_space (lstrip s) = false.
Proof.
  induction s as [|c s IH]; [reflexivity|].
  simpl. destruct (isspace c) eqn:Hc; [exact IH|]. simpl. exact Hc.
Qed.

Lemma rstrip_ends s : ends_with_space (rstrip s) = false.
Proof.
  induction s as [|c s IH]; [reflexivity|].
  simpl. destruct (rstrip s) as [|c' s'] eqn:Hr.
  - destruct (isspace c) eqn:Hc; [reflexivity|]. simpl. exact Hc.
  - exact IH.
Qed.

Lemma rstrip_starts s :
  starts_with_space s = false -> starts_with_space (rstrip s) = false.
Proof.
  destruct s as [|c s]; [reflexivity|].
  simpl. intros Hc. destruct (rstrip s); [rewrite Hc|]; simpl; auto.
Qed.

Lemma lstrip_fixed s : starts_with_space s = false -> lstrip s = s.
Proof. destruct s as [|c s]; simpl; [reflexivity|]. intros ->. reflexivity. Qed.

Lemma rstrip_fixed s : ends_with_space s = false -> rstrip s = s.
Proof.
  induction s as [|c s IH]; [reflexivity|].
  destruct s as [|c' s'].
  - simpl. intros ->. reflexivity.
  - intros He. change (ends_with_space (String c' s') = false) in He.
    change (rstrip (String c (String c' s')))
      with (match rstrip (String c' s') with
            | EmptyString =>
                if isspace c then EmptyString else String c EmptyString
            | String _ _ as rest' => String c rest'
            end).
    rewrite (IH He). reflexivity.
Qed.

Lemma strip_clean s :
  starts_with_space (strip s) = false /\
  ends_with_space (strip s) = false /\
  strip (strip s) = strip s /\
  (starts_with_space s = false -> ends_with_space s = false -> strip s = s).
Proof.
  unfold strip.
  assert (Hs : starts_with_space (rstrip (lstrip s)) = false)
    by apply rstrip_starts, lstrip_starts.
  assert (He : ends_with_space (rstrip (lstrip s)) = false)
    by apply rstrip_ends.
  split; [exact Hs|]. split; [exact He|]. split.
  - rewrite (lstrip_fixed _ Hs). apply rstrip_fixed. exact He.
  - intros Hs0 He0. rewrite (lstrip_fixed _ Hs0). apply rstrip_fixed.
    exact He0.
Qed.

(** X8. When the mode template renders, the mode attribute holds a text
    with no whitespace at either end, which stripping again leaves as it
    is; it is the rendered text itself when that has no whitespace at
    either end. *)
Theorem mode_has_no_surrounding_whitespace host self t (v : pyval) :
  In (CallRender Mode t (Rendered v)) (calls_of (_update_state host self)) ->
  exists s,
    _attr_mode (entity_after (_update_state host self)) = PStr s /\
    starts_with_space s = false /\
    ends_with_space s = false /\
    strip s = s /\
    (starts_with_space (py_str v) = false ->
     ends_with_space (py_str v) = false ->
     s = py_str v).
Proof.
  rewrite _update_state_blocks. intros Hin.
  destruct (run_blocks_stored host Mode all_attrs NoDup_all_attrs
              _ _ _ _ t v _ (run_eta _) Hin eq_refl) as [Hattr _].
  destruct (strip_clean (py_str v)) as (Hs & He & Hidem & Hfix).
  exists (strip (py_str v)). auto.
Qed.

(** ** Subscribing to nothing *)

(** X9. The component subscribes to no entity exactly when no configured
    template references one: in particular when no template is configured,
    or when the analysis of every configured template fails. *)
Theorem no_tracked_entities host self :
  (_get_template_entities host self = [] <->
   forall a t es,
     template_of a self = Some t ->
     render_to_info host t = Info es ->
     es = ∅) /\
  ((forall a, template_of a self = None) ->
   _get_template_entities host self = []) /\
  ((forall a t, template_of a self = Some t ->
                exists msg, render_to_info host t = InfoFailed msg) ->
   _get_template_entities host self = []).
Proof.
  assert (Hiff : _get_template_entities host self = [] <->
                 forall a t es,
                   template_of a self = Some t ->
                   render_to_info host t = Info es ->
                   es = ∅).
  { unfold _get_template_entities.
    rewrite elements_empty_iff, leibniz_equiv_iff. split.
    - intros Hempty a t es Ha Hinfo.
      apply elem_of_equiv_empty_L. intros x Hx.
      apply (not_elem_of_empty (C:=gset string) x). rewrite <- Hempty.
      apply gather_spec. right. exists t, es.
      split; [|auto]. apply templates_listed. now exists a.
    - intros Hall. apply elem_of_equiv_empty_L. intros x Hx.
      apply gather_spec in Hx.
      destruct Hx as [Hx|(t & es & Hin & Hinfo & Hx)].
      + exact (not_elem_of_empty x Hx).
      + apply templates_listed in Hin. destruct Hin as [a Ha].
        rewrite (Hall a t es Ha Hinfo) in Hx.
        exact (not_elem_of_empty x Hx). }
  split; [exact Hiff|]. split.
  - intros Hnone. apply Hiff. intros a t es Ha. rewrite Hnone in Ha.
    discriminate.
  - intros Hfail. apply Hiff. intros a t es Ha Hinfo.
    destruct (Hfail a t Ha) as [msg Hmsg]. congruence.
Qed.

(** ** From the configuration to the control operations *)

(** X10. The platform sets up one entity, off and with no attribute
    known.  On it a control operation runs a script exactly when its
    action is in the configuration: the script runs the configured
    sequence, under the configured name and in the humidifier domain, and
    the entity stays as it is; without the action the operation assigns
    the attribute and writes the state. *)
Theorem platform_entity_dispatch (config : ConfigType) (humidity mode : pyval) :
  exists self,
    async_setup_platform config = [self] /\
    is_on self = false /\
    match conf_set_target_humidity_action config with
    | Some sequence =>
        async_set_humidity humidity self =
          (Ret tt, self,
           [CallScriptRun
              (new_Script sequence (conf_name config) "humidifier")
              (Some [("humidity"%string, humidity)])])
    | None =>
        async_set_humidity humidity self =
          (Ret tt, set_attr_target_humidity humidity self,
           [CallWriteHaState (set_attr_target_humidity humidity self)])
    end /\
    match conf_set_mode_action config with
    | Some sequence =>
        async_set_mode mode self =
          (Ret tt, self,
           [CallScriptRun
              (new_Script sequence (conf_name config) "humidifier")
              (Some [("mode"%string, mode)])])
    | None =>
        async_set_mode mode self =
          (Ret tt, set_attr_mode mode self,
           [CallWriteHaState (set_attr_mode mode self)])
    end /\
    match conf_turn_on_action config with
    | Some sequence =>
        async_turn_on self =
          (Ret tt, self,
           [CallScriptRun
              (new_Script sequence (conf_name config) "humidifier") None])
    | None =>
        async_turn_on self =
          (Ret tt, set_state true self,
           [CallWriteHaState (set_state true self)])
    end /\
    match conf_turn_off_action config with
    | Some sequence =>
        async_turn_off self =
          (Ret tt, self,
           [CallScriptRun
              (new_Script sequence (conf_name config) "humidifier") None])
    | None =>
        async_turn_off self =
          (Ret tt, set_state false self,
           [CallWriteHaState (set_state false self)])
    end.
Proof.
  exists (__init__ config). split; [reflexivity|]. split; [reflexivity|].
  unfold async_set_humidity, async_set_mode, async_turn_on, async_turn_off,
    bind, get, modify, async_write_ha_state, async_run, call.
  simpl.
  destruct (conf_set_target_humidity_action config),
    (conf_set_mode_action config), (conf_turn_on_action config),
    (conf_turn_off_action config); repeat split.
Qed.

(** ** Control operations one after the other *)

(** X11. Control operations on different attributes commute: setting the
    humidity, setting the mode and turning on or off leave the same entity
    in either order, with or without scripts.  Repeating one operation
    keeps only the last value. *)
Theorem control_operations_compose (self : TemplateHumidifier)
    (h h' m m' : pyval) :
  entity_after (async_set_mode m (entity_after (async_set_humidity h self))) =
  entity_after (async_set_humidity h (entity_after (async_set_mode m self))) /\
  entity_after (async_turn_on (entity_after (async_set_humidity h self))) =
  entity_after (async_set_humidity h (entity_after (async_turn_on self))) /\
  entity_after (async_turn_off (entity_after (async_set_humidity h self))) =
  entity_after (async_set_humidity h (entity_after (async_turn_off self))) /\
  entity_after (async_turn_on (entity_after (async_set_mode m self))) =
  entity_after (async_set_mode m (entity_after (async_turn_on self))) /\
  entity_after (async_turn_off (entity_after (async_set_mode m self))) =
  entity_after (async_set_mode m (entity_after (async_turn_off self))) /\
  entity_after (async_set_humidity h' (entity_after (async_set_humidity h self))) =
  entity_after (async_set_humidity h' self) /\
  entity_after (async_set_mode m' (entity_after (async_set_mode m self))) =
  entity_after (async_set_mode m' self) /\
  entity_after (async_turn_on (entity_after (async_turn_on self))) =
  entity_after (async_turn_on self) /\
  entity_after (async_turn_off (entity_after (async_turn_off self))) =
  entity_after (async_turn_off self).
Proof.
  destruct self as [n u mn mx md t1 t2 t3 t4 t5 s1 s2 s3 s4 a1 a2 a3 a4 st sf dc].
  unfold async_set_humidity, async_set_mode, async_turn_on, async_turn_off,
    bind, get, modify, async_write_ha_state, async_run, call, entity_after.
  destruct s1, s2, s3, s4; repeat split.
Qed.

(** ** Being added to the host *)

(** X12. [async_added_to_hass] attaches the host to every configured
    template and leaves the others unset; it neither writes the state nor
    runs a script, and it asks for state changes to be tracked exactly
    once.  It ends as the recompute of the entity with the attached
    templates does: same outcome, same attributes. *)
Theorem added_to_hass_attaches_and_recomputes host self :
  (forall a,
     template_of a (entity_after (async_added_to_hass host self)) =
     attach_opt (template_of a self)) /\
  (forall s, ~ In (CallWriteHaState s)
                  (calls_of (async_added_to_hass host self))) /\
  (forall s variables,
     ~ In (CallScriptRun s variables)
          (calls_of (async_added_to_hass host self))) /\
  length (List.filter is_track (calls_of (async_added_to_hass host self)))
    = 1%nat /\
  outcome_of (async_added_to_hass host self) =
    outcome_of (_update_state host (attach_templates self)) /\
  forall a,
    attr_of a (entity_after (async_added_to_hass host self)) =
    attr_of a (entity_after (_update_state host (attach_templates self))).
Proof.
  rewrite added_to_hass_run. unfold entity_after, calls_of, outcome_of.
  cbn [fst snd].
  change (snd (fst (_update_state host (attach_templates self))))
    with (entity_after (_update_state host (attach_templates self))).
  change (snd (_update_state host (attach_templates self)))
    with (calls_of (_update_state host (attach_templates self))).
  rewrite _update_state_blocks.
  destruct (run_blocks_calls host State all_attrs (attach_templates self))
    as (_ & _ & Hkind).
  assert (Hnone : forall ev,
             In ev (calls_of (run_blocks host all_attrs (attach_templates self))) ->
             is_track ev = false).
  { intros ev Hin. apply Hkind in Hin. destruct ev; try discriminate;
      reflexivity. }
  split; [|split; [|split; [|split; [|split; [reflexivity|reflexivity]]]]].
  - intros a. rewrite <- template_of_attach_templates.
    eapply run_blocks_templates. apply run_eta.
  - intros s [Heq|Hin]; [discriminate|].
    apply Hkind in Hin. discriminate.
  - intros s variables [Heq|Hin]; [discriminate|].
    apply Hkind in Hin. discriminate.
  - cbn [List.filter is_track length]. f_equal.
    assert (Hempty : forall tr,
               (forall ev, In ev tr -> is_track ev = false) ->
               List.filter is_track tr = []).
    { induction tr as [|ev tr IH]; intros Hq; [reflexivity|].
      simpl. rewrite (Hq ev) by now left.
      apply IH. intros ev' Hin'. apply Hq. now right. }
    rewrite (Hempty _ Hnone). reflexivity.
Qed.

(** ** What a recompute that returns has done *)

(** X13. When the recompute returns, each attribute is determined by its
    template and the host: it keeps its value when the template is not
    configured, fails to render, or renders a value that does not convert;
    otherwise it holds the converted value (the on/off state for the state
    template, a float for the humidities, the stripped text for the mode,
    the text for the action). *)
Theorem recompute_result host self :
  outcome_of (_update_state host self) = Ret tt ->
  forall a,
    attr_of a (entity_after (_update_state host self)) =
    match template_of a self with
    | None => attr_of a self
    | Some t =>
        match render host t with
        | RenderFailed _ => attr_of a self
        | Rendered v =>
            match coerce a v with
            | Ret w => w
            | Raise _ => attr_of a self
            end
        end
    end.
Proof.
  rewrite _update_state_blocks. intros Hret a.
  pose proof (run_eta (run_blocks host all_attrs self)) as Hrun.
  destruct (template_of a self) as [t|] eqn:Ht.
  2:{ eapply run_blocks_unconfigured; eassumption. }
  assert (Hin : In (CallRender a t (render host t))
                   (calls_of (run_blocks host all_attrs self))).
  { rewrite Hret in Hrun.
    eapply run_blocks_returns; [exact Hrun| |exact Ht].
    destruct a; simpl; auto 6. }
  destruct (render host t) as [v|msg] eqn:Hr.
  - destruct (coerce a v) as [w|ex] eqn:Hc.
    + eapply run_blocks_stored;
        [apply NoDup_all_attrs|exact Hrun|exact Hin|exact Hc].
    + destruct (catches a ex) eqn:Hx.
      * eapply run_blocks_handled;
          [apply NoDup_all_attrs|exact Hrun|exact Hin|].
        unfold failure_of. rewrite Hc, Hx. reflexivity.
      * exfalso.
        destruct (coerce_raises a v ex Hc) as [Ha Hf].
        assert (Hunc : uncaught host a self).
        { exists t, v, ex. repeat (split; [assumption|]).
          intros ->. destruct Ha as [-> | ->]; discriminate. }
        destruct (uncaught_raises host self) as [ex' Hex'].
        { destruct Ha as [-> | ->]; auto. }
        congruence.
  - eapply run_blocks_handled;
      [apply NoDup_all_attrs|exact Hrun|exact Hin|reflexivity].
Qed.

(** ** The order of rendering *)

Lemma configured_same_templates s1 s2 l :
  (forall c, template_of c s1 = template_of c s2) ->
  configured s1 l = configured s2 l.
Proof.
  intros Hsame. unfold configured. apply List.filter_ext.
  intros a. unfold is_configured. rewrite Hsame. reflexivity.
Qed.

Lemma rendered_attrs_app tr1 tr2 :
  rendered_attrs (tr1 ++ tr2) = rendered_attrs tr1 ++ rendered_attrs tr2.
Proof. apply flat_map_app. Qed.

Lemma block_rendered host b self :
  rendered_attrs (calls_of (block host b self)) =
  if is_configured self b then [b] else [].
Proof.
  pose proof (block_inv host b self) as Hi.
  destruct (block host b self) as [[r s1] tr1].
  unfold is_configured.
  inversion Hi as [Ht|t o ex Ht|t v w Ht|t v ex Ht]; subst;
    rewrite Ht; reflexivity.
Qed.

Lemma run_blocks_order host l :
  forall self,
    exists skipped,
      configured self l =
        rendered_attrs (calls_of (run_blocks host l self)) ++ skipped /\
      (outcome_of (run_blocks host l self) = Ret tt -> skipped = []).
Proof.
  induction l as [|b l IH]; intros self.
  - exists []. split; [reflexivity|auto].
  - rewrite run_blocks_cons.
    pose proof (block_rendered host b self) as Hb.
    change (configured self (b :: l))
      with (if is_configured self b then b :: configured self l
            else configured self l).
    destruct (block host b self) as [[[[]|ex] s1] tr1] eqn:Hblock;
      unfold calls_of in Hb; simpl in Hb.
    + destruct (IH s1) as (skipped & Heq & Hret).
      rewrite (configured_same_templates s1 self) in Heq
        by (intros c; eapply block_templates; eassumption).
      destruct (run_blocks host l s1) as [[r2 s2] tr2].
      unfold calls_of, outcome_of in *. simpl in *.
      exists skipped. rewrite rendered_attrs_app, Hb, Heq.
      split; [|exact Hret].
      destruct (is_configured self b); reflexivity.
    + exists (configured self l). unfold calls_of, outcome_of. simpl.
      rewrite Hb. split; [|discriminate].
      destruct (is_configured self b); reflexivity.
Qed.

(** X14. The recompute renders the configured templates in the order
    state, target humidity, current humidity, mode, action, without
    skipping any before the last one it renders; when it returns it has
    rendered them all. *)
Theorem recompute_renders_in_order host self :
  exists skipped,
    configured self [State; TargetHumidity; CurrentHumidity; Mode; Action] =
      rendered_attrs (calls_of (_update_state host self)) ++ skipped /\
    (outcome_of (_update_state host self) = Ret tt -> skipped = []).
Proof.
  rewrite _update_state_blocks. apply (run_blocks_order host all_attrs self).
Qed.

(** ** A template error and the other templates *)


End Properties.

(** * The properties on concrete hosts *)

#[local] Existing Instance IntegralFloat.
Import Examples.
Local Open Scope string_scope.

(** C4. On a host where the target-humidity template renders to [None]
    (the attribute it reads is missing), [float(None)] raises [TypeError],
    which no [except] clause of the recompute names: the recompute stops
    there, and the mode template, though configured and rendering to
    ["auto"], is never rendered and the mode attribute is not updated. *)
Theorem recompute_stops_on_type_error :
  _target_humidity_template entity1 =
    Some (tpl "{{ state_attr('fan.h', 'humidity') }}") /\
  render host_none (tpl "{{ state_attr('fan.h', 'humidity') }}") =
    Rendered PNone /\
  _mode_template entity1 = Some (tpl "{{ states('select.h_mode') }}") /\
  render host_none (tpl "{{ states('select.h_mode') }}") =
    Rendered (PStr "auto") /\
  _update_state host_none entity1 =
    (Raise TypeError, entity1,
     [CallRender TargetHumidity (tpl "{{ state_attr('fan.h', 'humidity') }}")
        (Rendered PNone)]) /\
  _attr_mode (entity_after (_update_state host_none entity1)) = PNone /\
  (forall t o,
     ~ In (CallRender Mode t o) (calls_of (_update_state host_none entity1))).
Proof.
  repeat match goal with |- _ /\ _ => split end; try reflexivity.
  intros t o Hin.
  change (In (CallRender Mode t o)
            [CallRender TargetHumidity
               (tpl "{{ state_attr('fan.h', 'humidity') }}") (Rendered PNone)])
    in Hin.
  destruct Hin as [Heq|[]]. discriminate.
Qed.

(** C7. On the same host a state-change notification does not reach the
    write: the callback raises [TypeError] out of the recompute and the
    entity state is not written to the host. *)
Theorem notification_without_write_on_type_error :
  _async_update_state host_none entity1 =
    (Raise TypeError, entity1,
     [CallRender TargetHumidity (tpl "{{ state_attr('fan.h', 'humidity') }}")
        (Rendered PNone)]) /\
  (forall s,
     ~ In (CallWriteHaState s)
          (calls_of (_async_update_state host_none entity1))) /\
  outcome_of (async_added_to_hass host_none entity1) = Raise TypeError.
Proof.
  split; [reflexivity|]. split; [|reflexivity].
  intros s Hin.
  change (In (CallWriteHaState s)
            [CallRender TargetHumidity
               (tpl "{{ state_attr('fan.h', 'humidity') }}") (Rendered PNone)])
    in Hin.
  destruct Hin as [Heq|[]]. discriminate.
Qed.

Lemma control_without_script_witness :
  (_set_target_humidity_script entity1 = None /\
   _set_mode_script entity1 = None /\
   _turn_on_script entity1 = None /\
   _turn_off_script entity1 = None) /\
  _attr_target_humidity
    (entity_after (async_set_humidity (PInt 55) entity1)) = PInt 55 /\
  _attr_mode (entity_after (async_set_mode (PStr "sleep") entity1)) =
    PStr "sleep" /\
  is_on (entity_after (async_turn_on entity1)) = true /\
  is_on (entity_after (async_turn_off entity1)) = false.
Proof.
  pose proof (control_without_script_writes_optimistically
                entity1 (PInt 55) (PStr "sleep")) as (H1 & H2 & H3 & H4).
  split; [repeat split|].
  destruct (H1 eq_refl) as [E1 _], (H2 eq_refl) as [E2 _],
    (H3 eq_refl) as [E3 _], (H4 eq_refl) as [E4 _].
  rewrite E1, E2, E3, E4. repeat split.
Defined.

Lemma control_with_script_witness :
  (_set_target_humidity_script entity2 =
     Some (new_Script ["number.set_value"] (Some "Bedroom") "humidifier")) /\
  async_set_humidity (PInt 55) entity2 =
    (Ret tt, entity2,
     [CallScriptRun
        (new_Script ["number.set_value"] (Some "Bedroom") "humidifier")
        (Some [("humidity", PInt 55)])]).
Proof.
  split; [reflexivity|].
  apply (proj1 (control_with_script_runs_script_only
                  entity2 (PInt 55) (PStr "sleep")
                  (new_Script ["number.set_value"] (Some "Bedroom")
                     "humidifier"))).
  reflexivity.
Defined.

Lemma unconfigured_attribute_witness :
  template_of Action entity2 = None /\
  attr_of Action (entity_after (_update_state host_mode_fails entity2)) =
    attr_of Action entity2.
Proof.
  split; [reflexivity|].
  apply (unconfigured_attribute_is_kept host_mode_fails entity2 Action).
  reflexivity.
Defined.



Lemma schema_fields_witness :
  In (Optional "state_template" None cv_template) PLATFORM_SCHEMA_fields /\
  required (Optional "state_template" None cv_template) = false /\
  has_key "modes" PLATFORM_SCHEMA_fields = true /\
  lookup_field "modes"
    (PLATFORM_SCHEMA
       [ {| key := "platform"; required := true; default := None;
            validator := cv_string |} ]) =
  lookup_field "modes" PLATFORM_SCHEMA_fields.
Proof.
  assert (Hin : In (Optional "state_template" None cv_template)
                   PLATFORM_SCHEMA_fields).
  { simpl. do 6 right. left. reflexivity. }
  assert (Hk : has_key "modes" PLATFORM_SCHEMA_fields = true)
    by reflexivity.
  pose proof (schema_fields
                [ {| key := "platform"; required := true; default := None;
                     validator := cv_string |} ])
    as (_ & Hopt & _ & _ & _ & _ & _ & _ & _ & _ & Hlook).
  exact (conj Hin (conj (Hopt _ Hin) (conj Hk (Hlook _ Hk)))).
Defined.

Lemma recompute_ignores_current_values_witness :
  (forall a,
     template_of a entity2 =
     template_of a (set_attr_mode (PStr "sleep") entity2)) /\
  calls_of (_update_state host_unknown entity2) =
  calls_of (_update_state host_unknown (set_attr_mode (PStr "sleep") entity2)).
Proof.
  assert (Hsame : forall a,
             template_of a entity2 =
             template_of a (set_attr_mode (PStr "sleep") entity2))
    by (intros a; destruct a; reflexivity).
  split; [exact Hsame|].
  apply (recompute_ignores_current_values host_unknown entity2
           (set_attr_mode (PStr "sleep") entity2) Hsame).
Defined.

Lemma recompute_calls_witness :
  In (CallRender State (tpl "{{ states('fan.h') }}")
        (Rendered (PStr "unknown")))
     (calls_of (_update_state host_unknown entity2)) /\
  is_render_or_log
    (CallRender State (tpl "{{ states('fan.h') }}")
       (Rendered (PStr "unknown"))) = true.
Proof.
  assert (Hin : In (CallRender State (tpl "{{ states('fan.h') }}")
                      (Rendered (PStr "unknown")))
                   (calls_of (_update_state host_unknown entity2))).
  { apply (nth_error_In _ 0). reflexivity. }
  split; [exact Hin|].
  exact (proj1 (recompute_calls host_unknown entity2) _ Hin).
Defined.

Lemma recompute_raises_witness :
  outcome_of (_update_state host_none entity1) = Raise TypeError /\
  (uncaught host_none TargetHumidity entity1 \/
   uncaught host_none CurrentHumidity entity1) /\
  (TypeError = TypeError \/ TypeError = OverflowError).
Proof.
  assert (Hout : outcome_of (_update_state host_none entity1) = Raise TypeError)
    by reflexivity.
  split; [exact Hout|].
  destruct (recompute_raises_on_unconvertible_humidity host_none entity1)
    as [Hiff Hfwd].
  split.
  - apply Hiff. exists TypeError. exact Hout.
  - exact (proj1 (Hfwd TypeError Hout)).
Defined.

Lemma notification_writes_last_witness :
  (~ uncaught host_unknown TargetHumidity entity2 /\
   ~ uncaught host_unknown CurrentHumidity entity2) /\
  _async_update_state host_unknown entity2 =
    (Ret tt, entity_after (_update_state host_unknown entity2),
     (calls_of (_update_state host_unknown entity2)
      ++ [CallWriteHaState
            (entity_after (_update_state host_unknown entity2))])%list) /\
  length (calls_of (_async_update_state host_unknown entity2)) = 7%nat.
Proof.
  assert (Hnt : ~ uncaught host_unknown TargetHumidity entity2).
  { intros (t & v & ex & Ht & Hr & Hf & Hne).
    change (Some (tpl "{{ state_attr('fan.h', 'humidity') }}") = Some t) in Ht.
    inversion Ht; subst t.
    change (Rendered (PStr "unknown") = Rendered v) in Hr.
    inversion Hr; subst v.
    change (@Raise Z ValueError = Raise ex) in Hf. inversion Hf; subst ex.
    apply Hne. reflexivity. }
  assert (Hnc : ~ uncaught host_unknown CurrentHumidity entity2).
  { intros (t & v & ex & Ht & Hr & Hf & Hne).
    change (Some (tpl "{{ states('sensor.h') }}") = Some t) in Ht.
    inversion Ht; subst t.
    change (Rendered (PStr "unknown") = Rendered v) in Hr.
    inversion Hr; subst v.
    change (@Raise Z ValueError = Raise ex) in Hf. inversion Hf; subst ex.
    apply Hne. reflexivity. }
  split; [split; assumption|].
  split; [apply (notification_writes_last host_unknown entity2 Hnt Hnc)|].
  reflexivity.
Defined.

Lemma state_follows_rendered_value_witness :
  In (CallRender State (tpl "{{ states('fan.h') }}")
        (Rendered (PStr "unknown")))
     (calls_of (_update_state host_unknown entity2)) /\
  is_on (entity_after (_update_state host_unknown entity2)) = true.
Proof.
  assert (Hin : In (CallRender State (tpl "{{ states('fan.h') }}")
                      (Rendered (PStr "unknown")))
                   (calls_of (_update_state host_unknown entity2))).
  { apply (nth_error_In _ 0). reflexivity. }
  split; [exact Hin|].
  exact (state_follows_rendered_value host_unknown entity2 _ _ Hin).
Defined.

Lemma mode_has_no_surrounding_whitespace_witness :
  In (CallRender Mode (tpl "{{ states('select.h_mode') }}")
        (Rendered (PStr " auto ")))
     (calls_of (_update_state host_unknown entity2)) /\
  exists s,
    _attr_mode (entity_after (_update_state host_unknown entity2)) = PStr s /\
    starts_with_space s = false /\
    ends_with_space s = false.
Proof.
  assert (Hin : In (CallRender Mode (tpl "{{ states('select.h_mode') }}")
                      (Rendered (PStr " auto ")))
                   (calls_of (_update_state host_unknown entity2))).
  { apply (nth_error_In _ 5). reflexivity. }
  split; [exact Hin|].
  destruct (mode_has_no_surrounding_whitespace host_unknown entity2 _ _ Hin)
    as (s & Hmode & Hs & He & _).
  exists s. auto.
Defined.

Lemma no_tracked_entities_witness :
  (forall a, template_of a entity3 = None) /\
  _get_template_entities host_mode_fails entity3 = [].
Proof.
  assert (Hnone : forall a, template_of a entity3 = None)
    by (intros a; destruct a; reflexivity).
  split; [exact Hnone|].
  exact (proj1 (proj2 (no_tracked_entities host_mode_fails entity3)) Hnone).
Defined.

Lemma recompute_result_witness :
  outcome_of (_update_state host_unknown entity2) = Ret tt /\
  attr_of Mode (entity_after (_update_state host_unknown entity2)) =
    PStr "auto" /\
  attr_of TargetHumidity (entity_after (_update_state host_unknown entity2)) =
    attr_of TargetHumidity entity2.
Proof.
  assert (Hret : outcome_of (_update_state host_unknown entity2) = Ret tt)
    by reflexivity.
  split; [exact Hret|]. split.
  - exact (recompute_result host_unknown entity2 Hret Mode).
  - exact (recompute_result host_unknown entity2 Hret TargetHumidity).
Defined.

Lemma recompute_renders_in_order_witness :
  outcome_of (_update_state host_unknown entity2) = Ret tt /\
  exists skipped,
    configured entity2 [State; TargetHumidity; CurrentHumidity; Mode; Action] =
      (rendered_attrs (calls_of (_update_state host_unknown entity2))
       ++ skipped)%list /\
    skipped = [].
Proof.
  assert (Hret : outcome_of (_update_state host_unknown entity2) = Ret tt)
    by reflexivity.
  split; [exact Hret|].
  destruct (recompute_renders_in_order host_unknown entity2)
    as (skipped & Heq & Hnil).
  exists skipped. split; [exact Heq|exact (Hnil Hret)].
Defined.
